(** * The Cartesia voice agent: prewarm, entrypoint, voice-change handler

    A shallow embedding of [agent/main.py].  The program is glue around a
    voice-agent framework: [prewarm] fills the process-shared user data
    with two HTTP fetches, [entrypoint] builds one session from that data,
    and the callback [on_participant_attributes_changed] switches the
    synthesis voice.

    Calls into the framework (speaking, logging, connecting, publishing
    attributes, scheduling a task) are recorded as a trace of [event]s.
    Python exceptions are values of [exn]; a computation that raises stops
    and keeps the events and the state it had reached.

    What lies outside the program is a parameter: the environment and
    the network of [prewarm]; for [entrypoint] the defaults of the
    synthesis plugin, the text Python prints for a [float], and the
    outcome of the one awaited call the program issues before it starts
    the agent. *)

From Stdlib Require Import ZArith QArith List Ascii String Sorted Permutation Lia.
From Stdlib Require Import OrderedTypeEx.
From stdpp Require Import base option gmap strings list pretty.

Local Open Scope string_scope.
Local Open Scope list_scope.
Local Open Scope Z_scope.

(** ** Python values *)

(** A Python [float]: the number [m * 2^e], negated when [negative] is
    set, or an infinity.  A binary64 value is of this form, the two
    zeros included.  NaN is left out: no JSON text denotes it (Python's
    decoder accepts the bare word [NaN] as an extension). *)
Inductive pyfloat : Type :=
| Finite (negative : bool) (m : N) (e : Z)
| Infinite (negative : bool).

(** What [response.json()] can return, and what the user data holds.
    [PStr] carries the UTF-8 bytes of a Python [str]; [PInt] is Python's
    unbounded [int]; [PDict] keeps the insertion order of a [dict] with
    [str] keys and is read by first match; [PObject] is a foreign object
    the program only passes along (the loaded VAD model), named by
    [cls]. *)
#[warnings="-register-all"]
Inductive pyval : Type :=
| PNone
| PBool (b : bool)
| PInt (n : Z)
| PFloat (f : pyfloat)
| PStr (s : string)
| PList (l : list pyval)
| PDict (d : list (string * pyval))
| PObject (cls : string).

(** The exception classes the program can meet.  [RequestException]
    stands for [requests.RequestException] and all of its subclasses,
    which is what the [except] clause of [prewarm] catches.
    [CancelledError] is what an [await] ends with when the awaited call
    does not complete and the task is cancelled. *)
Inductive exn : Type :=
| KeyError (key : string)
| TypeError
| AttributeError
| RequestException (msg : string)
| CancelledError
| OtherException (msg : string).

Inductive result (A : Type) : Type :=
| Ok (a : A)
| Raise (e : exn).
Arguments Ok {A} a.
Arguments Raise {A} e.

Definition is_Ok {A} (r : result A) : bool :=
  match r with Ok _ => true | Raise _ => false end.

#[global] Instance result_ret : MRet result := @Ok.
#[global] Instance result_bind : MBind result := λ A B f r,
  match r with Ok a => f a | Raise e => Raise e end.

Module Py.

(** [bool(v)]. *)
Definition truthy (v : pyval) : bool :=
  match v with
  | PNone => false
  | PBool b => b
  | PInt n => negb (n =? 0)
  | PFloat (Finite _ m _) => negb (m =? 0)%N
  | PFloat (Infinite _) => true
  | PStr s => negb (String.eqb s "")
  | PList l => match l with [] => false | _ => true end
  | PDict d => match d with [] => false | _ => true end
  | PObject _ => true
  end.

(** An optional [str] as a Python value: [dict.get] without default. *)
Definition of_option (o : option string) : pyval :=
  match o with Some s => PStr s | None => PNone end.

(** [str(v)] inside an f-string, for the values the program formats. *)
Definition format_opt (o : option string) : string :=
  match o with Some s => s | None => "None" end.

Fixpoint assoc (d : list (string * pyval)) (k : string) : option pyval :=
  match d with
  | [] => None
  | (k', v) :: d' => if String.eqb k' k then Some v else assoc d' k
  end.

(** [v[k]] for a [str] key [k]: only a [dict] accepts it. *)
Definition getitem (v : pyval) (k : string) : result pyval :=
  match v with
  | PDict d => match assoc d k with Some x => Ok x | None => Raise (KeyError k) end
  | _ => Raise TypeError
  end.

(** [v.get(k, dflt)]: a method of [dict] only. *)
Definition get (v : pyval) (k : string) (dflt : pyval) : result pyval :=
  match v with
  | PDict d => Ok (default dflt (assoc d k))
  | _ => Raise AttributeError
  end.


(** [v == s] for a [str] [s]: no other type equals a [str]. *)
Definition eq_str (v : pyval) (s : string) : bool :=
  match v with PStr t => String.eqb t s | _ => false end.

(** [k in v] for a [str] [k]: key membership in a [dict], item
    membership in a [list], substring test on a [str]. *)
Definition contains (v : pyval) (k : string) : result bool :=
  match v with
  | PDict d => Ok (match assoc d k with Some _ => true | None => false end)
  | PList l => Ok (existsb (λ x, eq_str x k) l)
  | PStr s => Ok (match String.index 0 k s with Some _ => true | None => false end)
  | _ => Raise TypeError
  end.

(** The items of a [str]: one per byte here, one per code point in
    Python; the program only ever subscripts such an item with a [str],
    which raises for both. *)
Fixpoint chars (s : string) : list pyval :=
  match s with
  | EmptyString => []
  | String c s' => PStr (String c EmptyString) :: chars s'
  end.

(** [iter(v)]: the items a [for] loop over [v] visits. *)
Definition iter (v : pyval) : result (list pyval) :=
  match v with
  | PList l => Ok l
  | PDict d => Ok (map (λ kv, PStr (fst kv)) d)
  | PStr s => Ok (chars s)
  | _ => Raise TypeError
  end.

(** The value of a number: a rational, or an infinity. *)
Inductive number : Type :=
| Real (q : Q)
| Inf (negative : bool).

Definition float_number (f : pyfloat) : number :=
  match f with
  | Finite s m e =>
      Real (Qmult (inject_Z (if s then - Z.of_N m else Z.of_N m))
                  (Qpower (inject_Z 2) e))
  | Infinite s => Inf s
  end.

(** [bool], [int] and [float] compare with one another by value. *)
Definition as_number (v : pyval) : option number :=
  match v with
  | PBool b => Some (Real (inject_Z (if b then 1 else 0)))
  | PInt n => Some (Real (inject_Z n))
  | PFloat f => Some (float_number f)
  | _ => None
  end.

Definition num_compare (x y : number) : comparison :=
  match x, y with
  | Real p, Real q => Qcompare p q
  | Inf s, Inf t => if s then (if t then Eq else Lt) else (if t then Gt else Eq)
  | Inf s, Real _ => if s then Lt else Gt
  | Real _, Inf t => if t then Gt else Lt
  end.

(** How two values compare: [Equal] when [a == b]; [Less] or [Greater]
    when [a < b] or [b < a]; [Unordered] when they are not equal and
    [<] between them raises. *)
Inductive ordering : Type := Less | Equal | Greater | Unordered.

Definition of_comparison (c : comparison) : ordering :=
  match c with Lt => Less | Eq => Equal | Gt => Greater end.

(** The comparison read from the other side. *)
Definition opp (o : ordering) : ordering :=
  match o with Less => Greater | Greater => Less | o => o end.

Definition is_equal (o : ordering) : bool :=
  match o with Equal => true | _ => false end.

(** Two lists compare at the first pair of items that are not equal,
    and by length when there is none. *)
Definition lex {A : Type} (cmp : A → A → ordering)
    : list A → list A → ordering :=
  fix go l m :=
    match l, m with
    | [], [] => Equal
    | [], _ :: _ => Less
    | _ :: _, [] => Greater
    | x :: l', y :: m' => match cmp x y with Equal => go l' m' | o => o end
    end.

(** [d[k] == w], for a key [k] of [d]. *)
Definition lookup_equal (cmp : pyval → pyval → ordering) (k : string)
    (w : pyval) : list (string * pyval) → bool :=
  fix go d :=
    match d with
    | [] => false
    | (k', v) :: r => if String.eqb k' k then is_equal (cmp v w) else go r
    end.

(** Two dicts are equal when they have the same keys with equal
    values, in whatever order. *)
Definition dict_equal (cmp : pyval → pyval → ordering)
    (d e : list (string * pyval)) : bool :=
  forallb (λ kv, match assoc e kv.1 with
                 | Some w => lookup_equal cmp kv.1 w d
                 | None => false
                 end) d
  && forallb (λ kv, match assoc d kv.1 with Some _ => true | None => false end) e.

Fixpoint cmp (a b : pyval) {struct a} : ordering :=
  match a, b with
  | PNone, PNone => Equal
  | PStr s, PStr t => of_comparison (String.compare s t)
  | PList l, PList m => lex cmp l m
  | PDict d, PDict e => if dict_equal cmp d e then Equal else Unordered
  | PObject c, PObject c' => if String.eqb c c' then Equal else Unordered
  | _, _ =>
      match as_number a, as_number b with
      | Some x, Some y => of_comparison (num_compare x y)
      | _, _ => Unordered
      end
  end.

(** [a == b] *)
Definition eq (a b : pyval) : bool := is_equal (cmp a b).

(** The pairs of types between which [<] is defined. *)
Definition orderable (a b : pyval) : bool :=
  match a, b with
  | PStr _, PStr _ | PList _, PList _ => true
  | _, _ => match as_number a, as_number b with
            | Some _, Some _ => true
            | _, _ => false
            end
  end.

(** [a < b].  Strings are ordered by code point, which is the order of
    their UTF-8 bytes; numbers by value; two lists by [<] between the
    first pair of items that are not equal.  Every other pair raises
    [TypeError], and so does a pair of lists whose deciding items
    do. *)
Definition lt (a b : pyval) : result bool :=
  if orderable a b then
    match cmp a b with
    | Less => Ok true
    | Equal | Greater => Ok false
    | Unordered => Raise TypeError
    end
  else Raise TypeError.

(** [sep.join(items)]: every item must be a [str]. *)
Fixpoint as_strs (items : list pyval) : result (list string) :=
  match items with
  | [] => Ok []
  | PStr s :: r => ss ← as_strs r; Ok (s :: ss)
  | _ :: _ => Raise TypeError
  end.

Fixpoint concat_sep (sep : string) (ss : list string) : string :=
  match ss with
  | [] => ""
  | [s] => s
  | s :: r => s +:+ sep +:+ concat_sep sep r
  end.

Definition join (sep : string) (items : list pyval) : result string :=
  ss ← as_strs items; Ok (concat_sep sep ss).

(** A comprehension [f(x) for x in xs]: the first failure stops it. *)
Fixpoint traverse {A B} (f : A → result B) (xs : list A) : result (list B) :=
  match xs with
  | [] => Ok []
  | x :: r => y ← f x; ys ← traverse f r; Ok (y :: ys)
  end.

End Py.

(** ** Effects *)

(** The calls the program makes into the framework, in program order.
    [Say] is the call of an awaited [agent.say]; [CreateTaskSay] is
    [asyncio.create_task(agent.say(..))], which only schedules the
    utterance. *)
Inductive event : Type :=
| LogInfo (msg : string)
| LogWarning (msg : string)
| Say (text : string) (allow_interruptions : bool)
| CreateTaskSay (text : string) (allow_interruptions : bool)
| RoomOn (name : string)
| AgentOn (name : string)
| Connect
| SetAttributes (attributes : list (string * string))
| AgentStart.

(** A computation over a mutable state [S]: the events it emitted, the
    state it left, and its value or the exception that stopped it. *)
Definition M (S A : Type) : Type := S → list event * S * result A.

#[global] Instance M_ret {S} : MRet (M S) := λ A a s, ([], s, Ok a).
#[global] Instance M_bind {S} : MBind (M S) := λ A B f m s,
  match m s with
  | (t, s', Ok a) => let '(t', s'', r) := f a s' in (t ++ t', s'', r)
  | (t, s', Raise e) => (t, s', Raise e)
  end.

Definition emit {S} (e : event) : M S unit := λ s, ([e], s, Ok tt).
Definition lift {S A} (r : result A) : M S A := λ s, ([], s, r).
Definition get_state {S} : M S S := λ s, ([], s, Ok s).
Definition modify {S} (f : S → S) : M S unit := λ s, ([], f s, Ok tt).

Definition trace_of {S A} (o : list event * S * result A) : list event := o.1.1.
Definition state_of {S A} (o : list event * S * result A) : S := o.1.2.
Definition value_of {S A} (o : list event * S * result A) : result A := o.2.

(** [try: body / except requests.RequestException as e: handler(str(e))].
    Any other exception passes through. *)
Definition try_except_RequestException {S A}
    (body : M S A) (handler : string → M S A) : M S A := λ s,
  match body s with
  | (t, s', Raise (RequestException msg)) =>
      let '(t', s'', r) := handler msg s' in (t ++ t', s'', r)
  | o => o
  end.

(** ** The voice-change handler *)

Inductive ParticipantKind : Type :=
| PARTICIPANT_KIND_STANDARD
| PARTICIPANT_KIND_INGRESS
| PARTICIPANT_KIND_EGRESS
| PARTICIPANT_KIND_SIP
| PARTICIPANT_KIND_AGENT.

#[global] Instance ParticipantKind_eq_dec : EqDecision ParticipantKind.
Proof. solve_decision. Defined.

Record Participant : Type := {
  kind : ParticipantKind;
  identity : string;
  attributes : gmap string string
}.

(** The three fields of [tts._opts] the program writes. *)
Record TTSOptions : Type := {
  voice : pyval;
  model : string;
  language : pyval
}.

(** What the callbacks of one session close over: the catalog read at
    line 93, the synthesis adapter, and the two speaking flags. *)
Record session : Type := {
  cartesia_voices : pyval;
  tts_opts : TTSOptions;
  is_user_speaking : bool;
  is_agent_speaking : bool
}.

Definition set_tts_opts (o : TTSOptions) (s : session) : session :=
  {| cartesia_voices := cartesia_voices s; tts_opts := o;
     is_user_speaking := is_user_speaking s;
     is_agent_speaking := is_agent_speaking s |}.

Definition set_is_user_speaking (b : bool) (s : session) : session :=
  {| cartesia_voices := cartesia_voices s; tts_opts := tts_opts s;
     is_user_speaking := b; is_agent_speaking := is_agent_speaking s |}.

Definition set_is_agent_speaking (b : bool) (s : session) : session :=
  {| cartesia_voices := cartesia_voices s; tts_opts := tts_opts s;
     is_user_speaking := is_user_speaking s; is_agent_speaking := b |}.

(** Lines 156-174. *)
Definition agent_started_speaking : M session unit :=
  modify (set_is_agent_speaking true).
Definition agent_stopped_speaking : M session unit :=
  modify (set_is_agent_speaking false).
Definition user_started_speaking : M session unit :=
  modify (set_is_user_speaking true).
Definition user_stopped_speaking : M session unit :=
  modify (set_is_user_speaking false).

(** [next((voice for voice in voices if voice["id"] == voice_id), None)]:
    the generator is consumed up to the first match only. *)
Fixpoint next_voice (voices : list pyval) (voice_id : string)
    : result (option pyval) :=
  match voices with
  | [] => Ok None
  | voice :: rest =>
      i ← Py.getitem voice "id";
      if Py.eq_str i voice_id then Ok (Some voice) else next_voice rest voice_id
  end.

Definition confirmation : string := "How do I sound now?".

(** Lines 140-152, for the entry [voice_data] that was found. *)
Definition apply_voice (voice_data : pyval) : M session unit :=
  has_embedding ← lift (Py.contains voice_data "embedding");
  if has_embedding : bool then
    let model0 := "sonic-english" in
    let language0 := PStr "en" in
    (* "language" in voice_data and voice_data["language"] != "en" *)
    has_language ← lift (Py.contains voice_data "language");
    non_english ← (if has_language : bool
                   then l ← lift (Py.getitem voice_data "language");
                        mret (negb (Py.eq_str l "en"))
                   else mret false);
    '(language1, model1) ←
       (if non_english : bool
        then l ← lift (Py.getitem voice_data "language");
             mret (l, "sonic-multilingual")
        else mret (language0, model0));
    (* tts._opts.voice = ...; tts._opts.model = ...; tts._opts.language = ... *)
    embedding ← lift (Py.getitem voice_data "embedding");
    modify (λ s, set_tts_opts {| voice := embedding;
                                 model := model (tts_opts s);
                                 language := language (tts_opts s) |} s);;
    modify (λ s, set_tts_opts {| voice := voice (tts_opts s);
                                 model := model1;
                                 language := language (tts_opts s) |} s);;
    modify (λ s, set_tts_opts {| voice := voice (tts_opts s);
                                 model := model (tts_opts s);
                                 language := language1 |} s);;
    s ← get_state;
    if negb (is_agent_speaking s || is_user_speaking s)
    then emit (CreateTaskSay confirmation true)
    else mret tt
  else mret tt.

(** Lines 119-152. *)
Definition on_participant_attributes_changed
    (changed_attributes : gmap string string) (participant : Participant)
    : M session unit :=
  if negb (bool_decide (kind participant = PARTICIPANT_KIND_STANDARD))
  then mret tt
  else if bool_decide (is_Some (changed_attributes !! "voice")) then
    let voice_id := attributes participant !! "voice" in
    emit (LogInfo ("participant " +:+ identity participant
                   +:+ " requested voice change: " +:+ Py.format_opt voice_id));;
    (* if not voice_id: return *)
    if negb (Py.truthy (Py.of_option voice_id)) then mret tt
    else
      (* from here on [voice_id] is a non-empty str *)
      let voice_id := default "" voice_id in
      s ← get_state;
      voices ← lift (Py.iter (cartesia_voices s));
      voice_data ← lift (next_voice voices voice_id);
      (* if not voice_data: [None], or an entry that is falsy *)
      if negb (from_option Py.truthy false voice_data)
      then emit (LogWarning ("Voice " +:+ voice_id +:+ " not found"))
      else apply_voice (default PNone voice_data)
  else mret tt.

(** ** [json.dumps] with its default arguments *)

Module Json.

Definition quote : string := String "034"%char "".

Definition hex_digit (n : N) : ascii :=
  ascii_of_N (if (n <? 10)%N then 48 + n else 87 + n).

(** [chr(92) + 'u{0:04x}'.format(n)] *)
Definition u_escape (n : N) : string :=
  "\u" +:+ String (hex_digit (N.shiftr n 12 mod 16))
          (String (hex_digit (N.shiftr n 8 mod 16))
          (String (hex_digit (N.shiftr n 4 mod 16))
          (String (hex_digit (n mod 16)) ""))).

(** A code point outside printable ASCII: one escape, or a surrogate
    pair above the basic plane. *)
Definition escape_code_point (n : N) : string :=
  if (n <? 65536)%N then u_escape n
  else
    let m := (n - 65536)%N in
    u_escape (N.lor 55296 (N.land (N.shiftr m 10) 1023))
    +:+ u_escape (N.lor 56320 (N.land m 1023)).

(** One ASCII character: the short escapes, itself when printable
    (space to tilde), a [u] escape otherwise. *)
Definition escape_ascii (c : ascii) : string :=
  let n := N_of_ascii c in
  if (n =? 34)%N then "\" +:+ quote
  else if (n =? 92)%N then "\\"
  else if (n =? 10)%N then "\n"
  else if (n =? 13)%N then "\r"
  else if (n =? 9)%N then "\t"
  else if (n =? 12)%N then "\f"
  else if (n =? 8)%N then "\b"
  else if ((32 <=? n) && (n <=? 126))%N then String c ""
  else u_escape n.

Definition cont (c : ascii) : N := N.land (N_of_ascii c) 63.

(** [ensure_ascii] escaping of a [str] given by its UTF-8 bytes: each
    multi-byte sequence is decoded to its code point first.  A lead byte
    without its continuation bytes does not occur in an encoded [str];
    it is escaped as the byte's own value. *)
Fixpoint escape (s : string) : string :=
  match s with
  | EmptyString => ""
  | String c r =>
      let b := N_of_ascii c in
      if (b <? 128)%N then escape_ascii c +:+ escape r
      else if (b <? 224)%N then
        match r with
        | String c1 r1 =>
            escape_code_point (N.shiftl (N.land b 31) 6 + cont c1) +:+ escape r1
        | _ => u_escape b +:+ escape r
        end
      else if (b <? 240)%N then
        match r with
        | String c1 (String c2 r2) =>
            escape_code_point
              (N.shiftl (N.land b 15) 12 + N.shiftl (cont c1) 6 + cont c2)
            +:+ escape r2
        | _ => u_escape b +:+ escape r
        end
      else
        match r with
        | String c1 (String c2 (String c3 r3)) =>
            escape_code_point
              (N.shiftl (N.land b 7) 18 + N.shiftl (cont c1) 12
               + N.shiftl (cont c2) 6 + cont c3)
            +:+ escape r3
        | _ => u_escape b +:+ escape r
        end
  end.

Definition encode_str (s : string) : string := quote +:+ escape s +:+ quote.

Section Dumps.

(** [float.__repr__] on a finite [float]: the shortest decimal text that
    reads back as the same value. *)
Variable float_repr : pyfloat → string.

(** [json.dumps(v)]: separators [", "] and [": "], keys in insertion
    order; a foreign object is not serializable. *)
Fixpoint dumps (v : pyval) : result string :=
  match v with
  | PNone => Ok "null"
  | PBool b => Ok (if b then "true" else "false")
  | PInt n => Ok (pretty n)
  | PFloat (Infinite s) => Ok (if s then "-Infinity" else "Infinity")
  | PFloat f => Ok (float_repr f)
  | PStr s => Ok (encode_str s)
  | PList l =>
      items ← (fix go (l : list pyval) : result (list string) :=
                 match l with
                 | [] => Ok []
                 | x :: r => y ← dumps x; ys ← go r; Ok (y :: ys)
                 end) l;
      Ok ("[" +:+ Py.concat_sep ", " items +:+ "]")
  | PDict d =>
      items ← (fix go (d : list (string * pyval)) : result (list string) :=
                 match d with
                 | [] => Ok []
                 | (k, x) :: r =>
                     y ← dumps x; ys ← go r;
                     Ok ((encode_str k +:+ ": " +:+ y) :: ys)
                 end) d;
      Ok ("{" +:+ Py.concat_sep ", " items +:+ "}")
  | PObject _ => Raise TypeError
  end.

End Dumps.

End Json.

(** ** [list.sort(key=...)] *)

(** [list.sort] is stable and compares keys with [<] only.  It is
    embedded as a stable insertion sort over the keyed items.  The
    insertion sort returns exactly when [<] compares the keys of the
    items each with each, and so does every sort that has compared the
    neighbours of its result, because "not smaller" is transitive
    wherever [<] is defined; on such keys every stable sort returns the
    same list.  Otherwise a comparison raises [TypeError] and the sort
    raises it. *)
Module Sort.

Section Keyed.
Context {A : Type}.

(** [x] stood before every item of [l]: it goes in front of the first
    item that is not smaller than it. *)
Fixpoint insert (x : pyval * A) (l : list (pyval * A))
    : result (list (pyval * A)) :=
  match l with
  | [] => Ok [x]
  | y :: r =>
      b ← Py.lt y.1 x.1;
      if b : bool then r' ← insert x r; Ok (y :: r') else Ok (x :: y :: r)
  end.

Fixpoint sort_keyed (l : list (pyval * A)) : result (list (pyval * A)) :=
  match l with
  | [] => Ok []
  | x :: r => r' ← sort_keyed r; insert x r'
  end.

Definition sort (key : A → result pyval) (l : list A) : result (list A) :=
  keyed ← Py.traverse (λ x, k ← key x; Ok (k, x)) l;
  sorted ← sort_keyed keyed;
  Ok (map snd sorted).

End Keyed.

End Sort.

(** ** The session entrypoint *)

Definition generic_greeting : string := "Hi there, how are you doing today?".

Definition services_greeting (service_names : string) : string :=
  "Hi there! I'm Alex, your Aitek PH assistant. Here to help you with services like "
  +:+ service_names +:+ ". How can I assist you today?".

(** [userdata[k]] *)
Definition userdata_getitem (userdata : gmap string pyval) (k : string)
    : result pyval :=
  match userdata !! k with Some v => Ok v | None => Raise (KeyError k) end.

(** Lines 92-93: the two reads of the process-shared user data. *)
Definition read_userdata (userdata : gmap string pyval)
    : result (pyval * pyval) :=
  let knowledge_base := default (PDict []) (userdata !! "knowledge_base") in
  cartesia_voices ← userdata_getitem userdata "cartesia_voices";
  Ok (knowledge_base, cartesia_voices).

(** Lines 107-112: the text of the first greeting. *)
Definition first_greeting (knowledge_base : pyval) : result string :=
  if Py.truthy knowledge_base then
    services ← Py.get knowledge_base "services" (PList []);
    items ← Py.iter services;
    names ← Py.traverse (λ service, Py.getitem service "name") items;
    service_names ← Py.join ", " names;
    Ok (services_greeting service_names)
  else Ok generic_greeting.

(** Line 176: one item of the reduced voice list. *)
Definition reduce_voice (voice : pyval) : result pyval :=
  i ← Py.getitem voice "id";
  n ← Py.getitem voice "name";
  Ok (PDict [("id", i); ("name", n)]).

(** Lines 176-177. *)
Definition sorted_voices (cartesia_voices : pyval) : result (list pyval) :=
  items ← Py.iter cartesia_voices;
  voices ← Py.traverse reduce_voice items;
  Sort.sort (λ x, Py.getitem x "name") voices.

(** [local_participant.set_attributes(attrs)]: the given attributes
    replace or extend the published ones. *)
Definition set_attributes (attrs : list (string * string))
    : M (gmap string string) unit :=
  emit (SetAttributes attrs);;
  modify (λ published, list_to_map attrs ∪ published).

Section Entrypoint.

(** [cartesia.TTS(voice=...)] is the plugin's constructor: the model and
    language it starts with are its own defaults.  It is taken to
    return, as it does once an API key is configured. *)
Variable default_model : string.
Variable default_language : pyval.

(** How the awaited [agent.say] of lines 110 and 112 ends.  It is issued
    before [agent.start]: a pipeline agent that speaks only once started
    does not complete it, and the [await] then ends, if at all, with
    [CancelledError]. *)
Variable say_before_start : result unit.

(** The text of a finite [float], for [json.dumps]. *)
Variable float_repr : pyfloat → string.

Definition cartesia_TTS (v : string) : TTSOptions :=
  {| voice := PStr v; model := default_model; language := default_language |}.

(** Lines 49-181.  The state is the set of attributes published on the
    local participant; the value is what the callbacks close over.
    Lines 51-90 build the constant chat context, and the recognition and
    generation adapters are constructed from constants: they read and
    write nothing modelled here.  The awaited calls of lines 154, 178
    and 181 are taken to return. *)
Definition entrypoint (userdata : gmap string pyval)
    : M (gmap string string) session :=
  '(knowledge_base, cartesia_voices) ← lift (read_userdata userdata);
  let tts := cartesia_TTS "248be419-c632-4f23-adf1-5324ed7dbf1d" in
  vad ← lift (userdata_getitem userdata "vad");
  greeting ← lift (first_greeting knowledge_base);
  emit (Say greeting true);;
  lift say_before_start;;
  emit (RoomOn "participant_attributes_changed");;
  emit Connect;;
  emit (AgentOn "agent_started_speaking");;
  emit (AgentOn "agent_stopped_speaking");;
  emit (AgentOn "user_started_speaking");;
  emit (AgentOn "user_stopped_speaking");;
  voices ← lift (sorted_voices cartesia_voices);
  payload ← lift (Json.dumps float_repr (PList voices));
  set_attributes [("voices", payload)];;
  emit AgentStart;;
  emit (Say generic_greeting true);;
  mret {| cartesia_voices := cartesia_voices; tts_opts := tts;
          is_user_speaking := false; is_agent_speaking := false |}.

End Entrypoint.

(** ** The startup preparer *)

(** What the program reads of a [requests.Response]. *)
Record Response : Type := {
  status_code : Z;
  raise_for_status : result unit;
  json : result pyval
}.

Section Prewarm.

(** The process environment and the network. *)
Variable vad_load : result pyval.
Variable getenv : string → option string.
Variable requests_get : string → list (string * string) → result Response.

(** Lines 27-31. *)
Definition headers : list (string * string) :=
  [("X-API-Key", default "" (getenv "CARTESIA_API_KEY"));
   ("Cartesia-Version", "2024-08-01");
   ("Content-Type", "application/json")].

(** Lines 32-36. *)
Definition fetch_voices : M (gmap string pyval) unit :=
  response ← lift (requests_get "https://api.cartesia.ai/voices" headers);
  if status_code response =? 200 then
    body ← lift (json response);
    modify (<["cartesia_voices" := body]>)
  else
    emit (LogWarning ("Failed to fetch Cartesia voices: "
                      +:+ pretty (status_code response))).

Definition knowledge_base_url : string :=
  "https://alex.aitekph.com/knowledgedata.json".

(** Lines 38-46. *)
Definition load_knowledge_base : M (gmap string pyval) unit :=
  try_except_RequestException
    (knowledge_base_response ← lift (requests_get knowledge_base_url []);
     lift (raise_for_status knowledge_base_response);;
     body ← lift (json knowledge_base_response);
     modify (<["knowledge_base" := body]>);;
     emit (LogInfo "Knowledge base loaded successfully."))
    (λ e, emit (LogWarning ("Failed to load knowledge base: " +:+ e))).

(** Lines 22-46. *)
Definition prewarm : M (gmap string pyval) unit :=
  vad ← lift vad_load;
  modify (<["vad" := vad]>);;
  fetch_voices;;
  load_knowledge_base.

End Prewarm.

(** * Vocabulary of the statements *)

(** ** The handler *)

(** No entry carries the identifier [i]: every entry has an ["id"], and
    it differs from [i]. *)
Definition no_entry_with_id (voices : list pyval) (i : string) : Prop :=
  Forall (λ v, ∃ x, Py.getitem v "id" = Ok x ∧ x ≠ PStr i) voices.

(** The info record of line 128. *)
Definition request_info (p : Participant) : event :=
  LogInfo ("participant " +:+ identity p +:+ " requested voice change: "
           +:+ Py.format_opt (attributes p !! "voice")).

(** The model and language lines 141-145 compute for an entry. *)
Definition chosen (d : list (string * pyval)) : string * pyval :=
  match Py.assoc d "language" with
  | Some l => if Py.eq_str l "en" then ("sonic-english", PStr "en")
              else ("sonic-multilingual", l)
  | None => ("sonic-english", PStr "en")
  end.

(** ** The entrypoint *)

(** What was emitted between the first greeting and the publication. *)
Definition setup_events : list event :=
  [RoomOn "participant_attributes_changed"; Connect;
   AgentOn "agent_started_speaking"; AgentOn "agent_stopped_speaking";
   AgentOn "user_started_speaking"; AgentOn "user_stopped_speaking"].

(** The sort key of line 177. *)
Definition name_of (v : pyval) : result pyval := Py.getitem v "name".

(** [r] is the [{id, name}] pair drawn from the catalog entry [v]. *)
Definition reduced_from (v r : pyval) : Prop :=
  ∃ i n, Py.getitem v "id" = Ok i ∧ Py.getitem v "name" = Ok n
         ∧ r = PDict [("id", i); ("name", n)].

(** An entry as the voice catalog documents it: a [dict] with string
    ["id"] and ["name"]. *)
Definition well_formed_entry (v : pyval) : Prop :=
  ∃ i n, Py.getitem v "id" = Ok (PStr i) ∧ Py.getitem v "name" = Ok (PStr n).

(** ** Sorted lists *)

(** [b] may follow [a] in a sorted list of keyed items: its key is not
    smaller. *)
Definition key_le {A : Type} (a b : pyval * A) : Prop :=
  Py.lt b.1 a.1 = Ok false.

(** The key of the keyed item [a] equals [k]. *)
Definition keyed_as {A : Type} (k : pyval) (a : pyval * A) : bool :=
  Py.eq a.1 k.

(** The key of the keyed item [a] is a string. *)
Definition str_keyed {A : Type} (a : pyval * A) : Prop := ∃ s, a.1 = PStr s.

(** Two dict lookups agree: both miss, or both hit on equal values. *)
Definition related (f : pyval → pyval → Py.ordering) (o o' : option pyval)
    : Prop :=
  match o, o' with
  | Some v, Some w => f v w = Py.Equal
  | None, None => True
  | _, _ => False
  end.

(** [b] may follow [a]: both have a key and [key b < key a] is false. *)
Definition by_key {A : Type} (key : A → result pyval) (a b : A) : Prop :=
  ∃ ka kb, key a = Ok ka ∧ key b = Ok kb ∧ Py.lt kb ka = Ok false.

(** The key of [a] equals [k]. *)
Definition has_key {A : Type} (key : A → result pyval) (k : pyval) (a : A)
    : bool :=
  match key a with Ok k' => Py.eq k' k | Raise _ => false end.

(** ** The published text *)



(** ** The startup preparer *)

(** The warning of line 36. *)
Definition voices_warning (response : Response) : event :=
  LogWarning ("Failed to fetch Cartesia voices: " +:+ pretty (status_code response)).

(** The warning of line 46. *)
Definition knowledge_base_warning (msg : string) : event :=
  LogWarning ("Failed to load knowledge base: " +:+ msg).

(** The ways the knowledge-base request can fail with an exception the
    [except] clause catches: in the request itself, in
    [raise_for_status], or in decoding the body. *)
Definition knowledge_base_request_fails
    (requests_get : string → list (string * string) → result Response)
    (msg : string) : Prop :=
  requests_get knowledge_base_url [] = Raise (RequestException msg)
  ∨ ∃ response,
      requests_get knowledge_base_url [] = Ok response
      ∧ (raise_for_status response = Raise (RequestException msg)
         ∨ (raise_for_status response = Ok tt
            ∧ json response = Raise (RequestException msg))).

(** The knowledge-base fetch raises [e]: in the request itself, in
    [raise_for_status], or in decoding the body. *)
Definition knowledge_base_raises
    (requests_get : string → list (string * string) → result Response)
    (e : exn) : Prop :=
  requests_get knowledge_base_url [] = Raise e
  ∨ ∃ response,
      requests_get knowledge_base_url [] = Ok response
      ∧ (raise_for_status response = Raise e
         ∨ (raise_for_status response = Ok tt ∧ json response = Raise e)).

(** ** The outcomes of the handler *)

(** Every way one call of the handler can end, with the condition under
    which it does. *)
Inductive handled (changed : gmap string string) (p : Participant)
    (s : session) : list event * session * result unit → Prop :=
| handled_ignored :
    kind p ≠ PARTICIPANT_KIND_STANDARD ∨ changed !! "voice" = None →
    handled changed p s ([], s, Ok tt)
| handled_empty :
    kind p = PARTICIPANT_KIND_STANDARD →
    is_Some (changed !! "voice") →
    attributes p !! "voice" = None ∨ attributes p !! "voice" = Some "" →
    handled changed p s ([request_info p], s, Ok tt)
| handled_raised (i : string) (e : exn) :
    kind p = PARTICIPANT_KIND_STANDARD →
    is_Some (changed !! "voice") →
    attributes p !! "voice" = Some i → i ≠ "" →
    Py.iter (cartesia_voices s) = Raise e
    ∨ (∃ voices, Py.iter (cartesia_voices s) = Ok voices
                 ∧ next_voice voices i = Raise e) →
    handled changed p s ([request_info p], s, Raise e)
| handled_unknown (i : string) (voices : list pyval) :
    kind p = PARTICIPANT_KIND_STANDARD →
    is_Some (changed !! "voice") →
    attributes p !! "voice" = Some i → i ≠ "" →
    Py.iter (cartesia_voices s) = Ok voices →
    next_voice voices i = Ok None →
    handled changed p s
      ([request_info p; LogWarning ("Voice " +:+ i +:+ " not found")], s, Ok tt)
| handled_bare (i : string) (voices : list pyval) (d : list (string * pyval)) :
    kind p = PARTICIPANT_KIND_STANDARD →
    is_Some (changed !! "voice") →
    attributes p !! "voice" = Some i → i ≠ "" →
    Py.iter (cartesia_voices s) = Ok voices →
    next_voice voices i = Ok (Some (PDict d)) →
    Py.assoc d "embedding" = None →
    handled changed p s ([request_info p], s, Ok tt)
| handled_applied (i : string) (voices : list pyval)
    (d : list (string * pyval)) (emb : pyval) :
    kind p = PARTICIPANT_KIND_STANDARD →
    is_Some (changed !! "voice") →
    attributes p !! "voice" = Some i → i ≠ "" →
    Py.iter (cartesia_voices s) = Ok voices →
    next_voice voices i = Ok (Some (PDict d)) →
    Py.assoc d "embedding" = Some emb →
    handled changed p s
      (request_info p
         :: (if negb (is_agent_speaking s || is_user_speaking s)
             then [CreateTaskSay confirmation true] else []),
       set_tts_opts {| voice := emb; model := (chosen d).1;
                       language := (chosen d).2 |} s,
       Ok tt).

(** The model and the language fit together: the English model with
    ["en"], the multilingual model with anything else. *)
Definition consistent_opts (o : TTSOptions) : Prop :=
  (model o = "sonic-english" ∧ language o = PStr "en")
  ∨ (model o = "sonic-multilingual" ∧ language o ≠ PStr "en").

(** ** The speaking callbacks *)

(** The four callbacks of lines 156-174, as the framework may fire
    them. *)
Inductive speaking_event : Type :=
| AgentStartedSpeaking
| AgentStoppedSpeaking
| UserStartedSpeaking
| UserStoppedSpeaking.

Definition fire (ev : speaking_event) : M session unit :=
  match ev with
  | AgentStartedSpeaking => agent_started_speaking
  | AgentStoppedSpeaking => agent_stopped_speaking
  | UserStartedSpeaking => user_started_speaking
  | UserStoppedSpeaking => user_stopped_speaking
  end.

(** The session after the callbacks of [evs] ran one after the other. *)
Definition after_speaking (evs : list speaking_event) (s : session) : session :=
  fold_left (λ s ev, state_of (fire ev s)) evs s.

(** What the last agent event, or the last user event, of [evs] says;
    [dflt] when there is none. *)
Fixpoint last_agent (evs : list speaking_event) (dflt : bool) : bool :=
  match evs with
  | [] => dflt
  | AgentStartedSpeaking :: r => last_agent r true
  | AgentStoppedSpeaking :: r => last_agent r false
  | _ :: r => last_agent r dflt
  end.

Fixpoint last_user (evs : list speaking_event) (dflt : bool) : bool :=
  match evs with
  | [] => dflt
  | UserStartedSpeaking :: r => last_user r true
  | UserStoppedSpeaking :: r => last_user r false
  | _ :: r => last_user r dflt
  end.

(** * Sample data *)

(** A Tagalog voice with an embedding, and one without. *)
Definition voice_tl : pyval :=
  PDict [("id", PStr "v1"); ("name", PStr "A");
         ("embedding", PList [PInt 1; PInt 2]); ("language", PStr "tl")].

Definition voice_tl_bare : pyval :=
  PDict [("id", PStr "v2"); ("name", PStr "B"); ("language", PStr "tl")].

(** A session as [entrypoint] leaves it, with the plugin's defaults of
    the time for model and language. *)
Definition sample_session : session :=
  {| cartesia_voices := PList [voice_tl; voice_tl_bare];
     tts_opts := {| voice := PStr "248be419-c632-4f23-adf1-5324ed7dbf1d";
                    model := "sonic-english"; language := PStr "en" |};
     is_user_speaking := false;
     is_agent_speaking := false |}.

(** The sample session over another catalog. *)
Definition session_with (catalog : pyval) : session :=
  {| cartesia_voices := catalog;
     tts_opts := tts_opts sample_session;
     is_user_speaking := false;
     is_agent_speaking := false |}.

(** An English voice with an embedding, and an entry that lacks its
    ["id"]. *)
Definition voice_en : pyval :=
  PDict [("id", PStr "v3"); ("name", PStr "C");
         ("embedding", PList [PInt 3]); ("language", PStr "en")].

Definition entry_without_id : pyval := PDict [("name", PStr "D")].

(** A standard participant whose ["voice"] attribute is [voice_id]. *)
Definition requester (voice_id : string) : Participant :=
  {| kind := PARTICIPANT_KIND_STANDARD; identity := "user-1";
     attributes := {[ "voice" := voice_id ]} |}.

(** The changed attributes of a request for [voice_id]. *)
Definition voice_changed (voice_id : string) : gmap string string :=
  {[ "voice" := voice_id ]}.

(** User data after a prewarm that got the catalog but no knowledge
    base. *)
Definition sample_userdata : gmap string pyval :=
  <["vad" := PObject "VAD"]>
    (<["cartesia_voices" := PList [voice_tl_bare; voice_tl]]> ∅).

Definition sample_knowledge_base : pyval :=
  PDict [("services", PList [PDict [("name", PStr "Web Development")];
                             PDict [("name", PStr "AI Automation")]])].

(** A response as [requests] builds it from a status and a body:
    [raise_for_status] raises for 4xx and 5xx. *)
Definition sample_response (status : Z) (body : result pyval) : Response :=
  {| status_code := status;
     raise_for_status :=
       if (400 <=? status) && (status <? 600)
       then Raise (RequestException (pretty status +:+ " Error"))
       else Ok tt;
     json := body |}.

(** The catalog endpoint answers 503 and the knowledge-base host cannot
    be reached. *)
Definition network_down (url : string) (hs : list (string * string))
    : result Response :=
  if String.eqb url "https://api.cartesia.ai/voices"
  then Ok (sample_response 503 (Raise (RequestException "Expecting value")))
  else Raise (RequestException "Connection refused").

(** Both endpoints answer 200. *)
Definition network_up (url : string) (hs : list (string * string))
    : result Response :=
  if String.eqb url "https://api.cartesia.ai/voices"
  then Ok (sample_response 200 (Ok (PList [voice_tl_bare; voice_tl])))
  else Ok (sample_response 200 (Ok sample_knowledge_base)).

(** The catalog endpoint answers 200 with a body that is not JSON; the
    knowledge-base endpoint answers 200 with a good body. *)
Definition network_garbled (url : string) (hs : list (string * string))
    : result Response :=
  if String.eqb url "https://api.cartesia.ai/voices"
  then Ok (sample_response 200 (Raise (RequestException "Expecting value")))
  else Ok (sample_response 200 (Ok sample_knowledge_base)).



(** A catalog whose names are lists, and one whose names are numbers:
    1.5, 1, [True], minus infinity, -1.5, 0.75, 2^53 + 1 and the float
    2^53. *)
Definition catalog_of_lists : list pyval :=
  [PDict [("id", PStr "a"); ("name", PList [PInt 2])];
   PDict [("id", PStr "b"); ("name", PList [PInt 1; PInt 5])];
   PDict [("id", PStr "c"); ("name", PList [])];
   PDict [("id", PStr "d"); ("name", PList [PInt 1])]].

Definition catalog_of_numbers : list pyval :=
  [PDict [("id", PStr "a"); ("name", PFloat (Finite false 3 (-1)))];
   PDict [("id", PStr "b"); ("name", PInt 1)];
   PDict [("id", PStr "c"); ("name", PBool true)];
   PDict [("id", PStr "d"); ("name", PFloat (Infinite true))];
   PDict [("id", PStr "e"); ("name", PFloat (Finite true 3 (-1)))];
   PDict [("id", PStr "f"); ("name", PFloat (Finite false 3 (-2)))];
   PDict [("id", PStr "g"); ("name", PInt 9007199254740993)];
   PDict [("id", PStr "h"); ("name", PFloat (Finite false 1 53))]].


(** The text of the floats the samples use. *)
Definition sample_repr (f : pyfloat) : string :=
  match f with
  | Finite true 3 (-1) => "-1.5"
  | Finite false 1 (-1) => "0.5"
  | Finite false 3 (-2) => "0.75"
  | Finite false 1 0 => "1.0"
  | Finite false 3 (-1) => "1.5"
  | Finite false 2 0 => "2.0"
  | Finite false 1 53 => "9007199254740992.0"
  | _ => "0.0"
  end.



Definition payload_numbers : string :=
  String.concat (String "034"%char "")
    ["[{"; "id"; ": "; "d"; ", "; "name"; ": -Infinity}, {"; "id"; ": ";
     "e"; ", "; "name"; ": -1.5}, {"; "id"; ": "; "f"; ", "; "name";
     ": 0.75}, {"; "id"; ": "; "b"; ", "; "name"; ": 1}, {"; "id"; ": ";
     "c"; ", "; "name"; ": true}, {"; "id"; ": "; "a"; ", "; "name";
     ": 1.5}, {"; "id"; ": "; "h"; ", "; "name";
     ": 9007199254740992.0}, {"; "id"; ": "; "g"; ", "; "name";
     ": 9007199254740993}]"].


(** * Proof automation *)

(** Closes [e ∉ [e']] for two events that differ. *)
Ltac not_in_singleton :=
  match goal with
  | H : _ ∈ [_] |- _ => apply list_elem_of_singleton in H; discriminate H
  | |- _ ∉ [_] => let H := fresh in
                  intros H; apply list_elem_of_singleton in H; discriminate H
  end.

(** Splits [e ∈ [e1; ..; en]] into its cases and drops those where the
    events differ. *)
Ltac in_trace H :=
  repeat (apply elem_of_cons in H as [H|H]; [try discriminate H|]);
  try (apply elem_of_nil in H; destruct H).

(** * Properties *)

(** ** Facts about the Python operations *)

Lemma eq_str_true (v : pyval) (s : string) :
  Py.eq_str v s = true ↔ v = PStr s.
Proof.
  destruct v; simpl; try (split; [discriminate | congruence]).
  rewrite String.eqb_eq. split; congruence.
Qed.

Lemma eq_str_false (v : pyval) (s : string) :
  Py.eq_str v s = false ↔ v ≠ PStr s.
Proof.
  rewrite <- eq_str_true. destruct (Py.eq_str v s); split; congruence.
Qed.

Lemma truthy_str (s : string) : Py.truthy (PStr s) = true ↔ s ≠ "".
Proof.
  simpl. rewrite negb_true_iff, String.eqb_neq. reflexivity.
Qed.

(** An entry that [next_voice] returns is a [dict] whose ["id"] is the
    requested identifier; in particular it is truthy. *)
Lemma next_voice_found (voices : list pyval) (i : string) (v : pyval) :
  next_voice voices i = Ok (Some v) →
  v ∈ voices ∧ ∃ d, v = PDict d ∧ Py.assoc d "id" = Some (PStr i).
Proof.
  induction voices as [|w r IH]; simpl; [discriminate|].
  destruct (Py.getitem w "id") as [x|e] eqn:Hw; simpl; [|discriminate].
  destruct (Py.eq_str x i) eqn:Hx.
  - intros [= <-]. split; [left|].
    apply eq_str_true in Hx as ->.
    destruct w; simpl in Hw; try discriminate.
    destruct (Py.assoc d "id") eqn:Hd; [|discriminate].
    injection Hw as ->. eauto.
  - intros H. destruct (IH H) as [Hin Hd]. split; [by right | done].
Qed.

Lemma next_voice_found_truthy (voices : list pyval) (i : string) (v : pyval) :
  next_voice voices i = Ok (Some v) → Py.truthy v = true.
Proof.
  intros H. apply next_voice_found in H as (_ & d & -> & Hd).
  destruct d; [discriminate | reflexivity].
Qed.

Lemma next_voice_absent (voices : list pyval) (i : string) :
  no_entry_with_id voices i → next_voice voices i = Ok None.
Proof.
  induction 1 as [|v r (x & Hx & Hne) _ IH]; simpl; [reflexivity|].
  rewrite Hx. simpl. apply eq_str_false in Hne. by rewrite Hne.
Qed.

(** ** The handler, case by case *)

Lemma apply_voice_without_embedding (d : list (string * pyval)) (s : session) :
  Py.assoc d "embedding" = None → apply_voice (PDict d) s = ([], s, Ok tt).
Proof.
  intros H. unfold apply_voice. simpl. rewrite H. reflexivity.
Qed.

Lemma apply_voice_with_embedding (d : list (string * pyval)) (emb : pyval)
    (s : session) :
  Py.assoc d "embedding" = Some emb →
  apply_voice (PDict d) s
  = (if negb (is_agent_speaking s || is_user_speaking s)
     then [CreateTaskSay confirmation true] else [],
     set_tts_opts {| voice := emb; model := (chosen d).1;
                     language := (chosen d).2 |} s,
     Ok tt).
Proof.
  intros H. destruct s as [c o u a].
  unfold apply_voice, chosen, mbind, M_bind, mret, M_ret, lift, modify,
    get_state, emit.
  simpl. rewrite H. simpl.
  destruct (Py.assoc d "language") as [l|]; simpl.
  - destruct (Py.eq_str l "en"); simpl; destruct a, u; reflexivity.
  - destruct a, u; reflexivity.
Qed.

(** The handler up to the catalog lookup. *)
Lemma handler_lookup (s : session) (p : Participant)
    (changed : gmap string string) (i : string) (voices : list pyval) :
  kind p = PARTICIPANT_KIND_STANDARD →
  is_Some (changed !! "voice") →
  attributes p !! "voice" = Some i → i ≠ "" →
  Py.iter (cartesia_voices s) = Ok voices →
  on_participant_attributes_changed changed p s
  = match next_voice voices i with
    | Ok None => ([request_info p; LogWarning ("Voice " +:+ i +:+ " not found")],
                  s, Ok tt)
    | Ok (Some v) =>
        if Py.truthy v
        then let '(t, s', r) := apply_voice v s in (request_info p :: t, s', r)
        else ([request_info p; LogWarning ("Voice " +:+ i +:+ " not found")],
              s, Ok tt)
    | Raise e => ([request_info p], s, Raise e)
    end.
Proof.
  intros Hk Hc Hv Hi Hit. unfold on_participant_attributes_changed, request_info.
  rewrite Hk, (bool_decide_eq_true_2 _ Hc), Hv. simpl.
  apply truthy_str in Hi. simpl in Hi. rewrite Hi. simpl.
  unfold mbind, M_bind, emit, get_state, lift. simpl. rewrite Hit. simpl.
  destruct (next_voice voices i) as [[v|]|e]; simpl; try reflexivity.
  destruct (Py.truthy v); simpl; [|reflexivity].
  destruct (apply_voice v s) as [[t s'] r]. reflexivity.
Qed.

(** ** Voice selection *)

(** C2, as stated, fails: the entry ["v2"] declares the language ["tl"]
    but has no ["embedding"]; requesting it leaves the adapter on
    ["sonic-english"] and ["en"]. *)
Lemma language_without_embedding_not_applied :
  next_voice [voice_tl; voice_tl_bare] "v2" = Ok (Some voice_tl_bare)
  ∧ Py.getitem voice_tl_bare "language" = Ok (PStr "tl")
  ∧ let o := tts_opts (state_of (on_participant_attributes_changed
                                   (voice_changed "v2") (requester "v2")
                                   sample_session)) in
    model o = "sonic-english" ∧ model o ≠ "sonic-multilingual"
    ∧ language o = PStr "en" ∧ language o ≠ PStr "tl".
Proof. repeat split; try reflexivity; vm_compute; discriminate. Qed.

(** C2, amended.  For every entry the handler selects that has an
    ["embedding"] field: the adapter's voice becomes that embedding; if
    the ["language"] field is absent or equal to ["en"], the model becomes
    ["sonic-english"] and the language ["en"]; if the ["language"] field
    is present and not ["en"], the model becomes ["sonic-multilingual"]
    and the language the field's value. *)
Theorem selected_voice_model_and_language
    (s : session) (p : Participant) (changed : gmap string string)
    (i : string) (voices : list pyval) (d : list (string * pyval))
    (emb : pyval) :
  kind p = PARTICIPANT_KIND_STANDARD →
  is_Some (changed !! "voice") →
  attributes p !! "voice" = Some i → i ≠ "" →
  Py.iter (cartesia_voices s) = Ok voices →
  next_voice voices i = Ok (Some (PDict d)) →
  Py.assoc d "embedding" = Some emb →
  let o := tts_opts (state_of (on_participant_attributes_changed changed p s)) in
  voice o = emb
  ∧ (Py.assoc d "language" = None ∨ Py.assoc d "language" = Some (PStr "en") →
     model o = "sonic-english" ∧ language o = PStr "en")
  ∧ (∀ l, Py.assoc d "language" = Some l → l ≠ PStr "en" →
     model o = "sonic-multilingual" ∧ language o = l).
Proof.
  intros Hk Hc Hv Hi Hit Hn He.
  rewrite (handler_lookup s p changed i voices Hk Hc Hv Hi Hit), Hn.
  rewrite (next_voice_found_truthy _ _ _ Hn).
  rewrite (apply_voice_with_embedding d emb s He). unfold chosen. simpl.
  split; [reflexivity|]. split.
  - intros [-> | ->]; simpl; done.
  - intros l -> Hl. apply eq_str_false in Hl. rewrite Hl. done.
Qed.

Lemma selected_voice_model_and_language_witness :
  let o := tts_opts (state_of (on_participant_attributes_changed
                                 (voice_changed "v1") (requester "v1")
                                 sample_session)) in
  voice o = PList [PInt 1; PInt 2]
  ∧ model o = "sonic-multilingual" ∧ language o = PStr "tl".
Proof.
  destruct (selected_voice_model_and_language
              sample_session (requester "v1") (voice_changed "v1") "v1"
              [voice_tl; voice_tl_bare]
              [("id", PStr "v1"); ("name", PStr "A");
               ("embedding", PList [PInt 1; PInt 2]); ("language", PStr "tl")]
              (PList [PInt 1; PInt 2]))
    as (Hvoice & _ & Hlang);
    try reflexivity; try discriminate; [by eexists|].
  split; [exact Hvoice|].
  apply (Hlang (PStr "tl")); [reflexivity | discriminate].
Defined.

(** C10, as stated, fails: a request for ["v2"], whose entry is found and
    has no ["embedding"] field, does not pass without any action: the
    info record of the request is logged at line 128, before the catalog
    is searched. *)
Lemma voice_without_embedding_logs_request :
  next_voice [voice_tl; voice_tl_bare] "v2" = Ok (Some voice_tl_bare)
  ∧ Py.contains voice_tl_bare "embedding" = Ok false
  ∧ let o := on_participant_attributes_changed
               (voice_changed "v2") (requester "v2") sample_session in
    LogInfo "participant user-1 requested voice change: v2" ∈ trace_of o
    ∧ trace_of o ≠ [].
Proof.
  split; [reflexivity|]. split; [reflexivity|].
  split; [vm_compute; left | vm_compute; discriminate].
Qed.

(** C10, amended.  When the requested identifier is found but the entry
    has no ["embedding"] field, the handler performs no action other
    than the info record of the request, logged before the lookup: the
    session is left as it was, so voice, model and language are
    unchanged, no warning is logged and no confirmation is scheduled. *)
Theorem voice_without_embedding_is_ignored
    (s : session) (p : Participant) (changed : gmap string string)
    (i : string) (voices : list pyval) (d : list (string * pyval)) :
  kind p = PARTICIPANT_KIND_STANDARD →
  is_Some (changed !! "voice") →
  attributes p !! "voice" = Some i → i ≠ "" →
  Py.iter (cartesia_voices s) = Ok voices →
  next_voice voices i = Ok (Some (PDict d)) →
  Py.assoc d "embedding" = None →
  let o := on_participant_attributes_changed changed p s in
  state_of o = s
  ∧ value_of o = Ok tt
  ∧ trace_of o = [LogInfo ("participant " +:+ identity p
                           +:+ " requested voice change: " +:+ i)]
  ∧ (∀ msg, LogWarning msg ∉ trace_of o)
  ∧ (∀ text b, CreateTaskSay text b ∉ trace_of o).
Proof.
  intros Hk Hc Hv Hi Hit Hn He.
  rewrite (handler_lookup s p changed i voices Hk Hc Hv Hi Hit), Hn.
  rewrite (next_voice_found_truthy _ _ _ Hn).
  rewrite (apply_voice_without_embedding d s He).
  unfold request_info, trace_of, state_of, value_of. rewrite Hv. simpl.
  repeat split; intros; not_in_singleton.
Qed.

Lemma voice_without_embedding_is_ignored_witness :
  let o := on_participant_attributes_changed
             (voice_changed "v2") (requester "v2") sample_session in
  state_of o = sample_session
  ∧ value_of o = Ok tt
  ∧ trace_of o = [LogInfo "participant user-1 requested voice change: v2"]
  ∧ (∀ msg, LogWarning msg ∉ trace_of o)
  ∧ (∀ text b, CreateTaskSay text b ∉ trace_of o).
Proof.
  apply (voice_without_embedding_is_ignored
           sample_session (requester "v2") (voice_changed "v2") "v2"
           [voice_tl; voice_tl_bare]
           [("id", PStr "v2"); ("name", PStr "B"); ("language", PStr "tl")]);
    try reflexivity; try discriminate; by eexists.
Defined.

(** ** Unknown and missing identifiers *)

(** C3, as stated, fails: a request for the unknown identifier ["v9"]
    produces two log records, the info record of the request and then the
    warning, so the warning is not the only observable effect. *)
Lemma unknown_voice_logs_request_too :
  no_entry_with_id [voice_tl; voice_tl_bare] "v9"
  ∧ let o := on_participant_attributes_changed
               (voice_changed "v9") (requester "v9") sample_session in
    trace_of o = [LogInfo "participant user-1 requested voice change: v9";
                  LogWarning "Voice v9 not found"]
    ∧ ¬ ∃ msg, trace_of o = [LogWarning msg].
Proof.
  split.
  - repeat constructor; eexists; (split; [reflexivity | discriminate]).
  - split; [reflexivity|]. intros [msg H]. vm_compute in H. discriminate.
Qed.

(** C3, amended.  For every catalog whose entries all carry an identifier
    different from the requested, non-empty identifier [i], the handler
    leaves the session (voice, model, language and flags) unchanged and
    returns normally; its only observable effects are two log records:
    the info record of the request, then the warning that [i] was not
    found. *)
Theorem unknown_voice_only_logs
    (s : session) (p : Participant) (changed : gmap string string)
    (i : string) (voices : list pyval) :
  kind p = PARTICIPANT_KIND_STANDARD →
  is_Some (changed !! "voice") →
  attributes p !! "voice" = Some i → i ≠ "" →
  Py.iter (cartesia_voices s) = Ok voices →
  no_entry_with_id voices i →
  on_participant_attributes_changed changed p s
  = ([LogInfo ("participant " +:+ identity p
               +:+ " requested voice change: " +:+ i);
      LogWarning ("Voice " +:+ i +:+ " not found")],
     s, Ok tt).
Proof.
  intros Hk Hc Hv Hi Hit Hno.
  rewrite (handler_lookup s p changed i voices Hk Hc Hv Hi Hit).
  rewrite (next_voice_absent voices i Hno).
  unfold request_info. rewrite Hv. reflexivity.
Qed.

Lemma unknown_voice_only_logs_witness :
  on_participant_attributes_changed (voice_changed "v9") (requester "v9")
    sample_session
  = ([LogInfo "participant user-1 requested voice change: v9";
      LogWarning "Voice v9 not found"],
     sample_session, Ok tt).
Proof.
  apply (unknown_voice_only_logs sample_session (requester "v9")
           (voice_changed "v9") "v9" [voice_tl; voice_tl_bare]);
    try reflexivity; try discriminate; [by eexists|].
  repeat constructor; eexists; (split; [reflexivity | discriminate]).
Defined.

(** C9.  When a standard participant's changed attributes contain
    ["voice"] but the participant's current ["voice"] attribute is missing
    or empty, the handler returns after the info record of the request:
    no warning is logged, the session is unchanged, and the outcome is
    the same whatever the catalog holds, so the catalog is not read. *)
Theorem empty_voice_request_returns
    (s : session) (p : Participant) (changed : gmap string string) :
  kind p = PARTICIPANT_KIND_STANDARD →
  is_Some (changed !! "voice") →
  attributes p !! "voice" = None ∨ attributes p !! "voice" = Some "" →
  let o := on_participant_attributes_changed changed p s in
  state_of o = s
  ∧ value_of o = Ok tt
  ∧ (∀ msg, LogWarning msg ∉ trace_of o)
  ∧ (∀ catalog,
       let o' := on_participant_attributes_changed changed p
                   {| cartesia_voices := catalog; tts_opts := tts_opts s;
                      is_user_speaking := is_user_speaking s;
                      is_agent_speaking := is_agent_speaking s |} in
       trace_of o' = trace_of o ∧ value_of o' = value_of o
       ∧ tts_opts (state_of o') = tts_opts s).
Proof.
  intros Hk Hc Hv. unfold on_participant_attributes_changed.
  rewrite Hk, (bool_decide_eq_true_2 _ Hc).
  unfold trace_of, state_of, value_of.
  destruct Hv as [-> | ->]; simpl; (repeat split; intros; not_in_singleton).
Qed.

Lemma empty_voice_request_returns_witness :
  let o := on_participant_attributes_changed
             (voice_changed "") (requester "") sample_session in
  state_of o = sample_session ∧ value_of o = Ok tt
  ∧ (∀ msg, LogWarning msg ∉ trace_of o).
Proof.
  destruct (empty_voice_request_returns sample_session (requester "")
              (voice_changed ""))
    as (H1 & H2 & H3 & _);
    [reflexivity | by eexists | right; reflexivity |].
  exact (conj H1 (conj H2 H3)).
Defined.

(** ** The confirmation utterance *)

Lemma handler_ignores_other_kinds (s : session) (p : Participant)
    (changed : gmap string string) :
  kind p ≠ PARTICIPANT_KIND_STANDARD →
  on_participant_attributes_changed changed p s = ([], s, Ok tt).
Proof.
  intros Hk. unfold on_participant_attributes_changed.
  destruct (bool_decide (kind p = PARTICIPANT_KIND_STANDARD)) eqn:E;
    [apply bool_decide_eq_true_1 in E; contradiction | reflexivity].
Qed.

Lemma handler_ignores_other_attributes (s : session) (p : Participant)
    (changed : gmap string string) :
  changed !! "voice" = None →
  on_participant_attributes_changed changed p s = ([], s, Ok tt).
Proof.
  intros Hc. unfold on_participant_attributes_changed. rewrite Hc.
  destruct (bool_decide (kind p = PARTICIPANT_KIND_STANDARD)); [|reflexivity].
  destruct (bool_decide (is_Some None)) eqn:E; [|reflexivity].
  apply bool_decide_eq_true_1 in E. by destruct E.
Qed.

Lemma handler_catalog_not_iterable (s : session) (p : Participant)
    (changed : gmap string string) (i : string) (e : exn) :
  kind p = PARTICIPANT_KIND_STANDARD →
  is_Some (changed !! "voice") →
  attributes p !! "voice" = Some i → i ≠ "" →
  Py.iter (cartesia_voices s) = Raise e →
  on_participant_attributes_changed changed p s = ([request_info p], s, Raise e).
Proof.
  intros Hk Hc Hv Hi Hit. unfold on_participant_attributes_changed, request_info.
  rewrite Hk, (bool_decide_eq_true_2 _ Hc), Hv. simpl.
  apply truthy_str in Hi. simpl in Hi. rewrite Hi. simpl.
  unfold mbind, M_bind, emit, get_state, lift. simpl. by rewrite Hit.
Qed.

(** C5.  Whenever the handler schedules an utterance, it is the
    confirmation, a voice matching the requested identifier was found and
    its embedding applied to the adapter, and neither speaking flag was
    set; so nothing is scheduled while the user or the agent speaks. *)
Theorem confirmation_only_when_applied_and_silent
    (s : session) (p : Participant) (changed : gmap string string)
    (text : string) (b : bool) :
  CreateTaskSay text b ∈ trace_of (on_participant_attributes_changed changed p s) →
  text = "How do I sound now?" ∧ b = true
  ∧ is_user_speaking s = false ∧ is_agent_speaking s = false
  ∧ ∃ i voices d emb,
      attributes p !! "voice" = Some i
      ∧ Py.iter (cartesia_voices s) = Ok voices
      ∧ next_voice voices i = Ok (Some (PDict d))
      ∧ Py.assoc d "embedding" = Some emb
      ∧ voice (tts_opts (state_of (on_participant_attributes_changed changed p s)))
        = emb.
Proof.
  intros Hin.
  destruct (decide (kind p = PARTICIPANT_KIND_STANDARD)) as [Hk|Hk];
    [|rewrite handler_ignores_other_kinds in Hin by done; in_trace Hin].
  destruct (changed !! "voice") as [c|] eqn:Hc;
    [|rewrite handler_ignores_other_attributes in Hin by done; in_trace Hin].
  assert (is_Some (changed !! "voice")) as Hc' by (rewrite Hc; eauto).
  destruct (attributes p !! "voice") as [i|] eqn:Hv; cycle 1.
  { revert Hin. unfold on_participant_attributes_changed.
    rewrite Hk, (bool_decide_eq_true_2 _ Hc'), Hv. simpl.
    intros Hin. in_trace Hin. }
  destruct (decide (i = "")) as [->|Hi].
  { revert Hin. unfold on_participant_attributes_changed.
    rewrite Hk, (bool_decide_eq_true_2 _ Hc'), Hv. simpl.
    intros Hin. in_trace Hin. }
  destruct (Py.iter (cartesia_voices s)) as [voices|e] eqn:Hit;
    [|rewrite (handler_catalog_not_iterable s p changed i e) in Hin by done;
      in_trace Hin].
  rewrite (handler_lookup s p changed i voices Hk Hc' Hv Hi Hit) in Hin |- *.
  destruct (next_voice voices i) as [[v|]|e] eqn:Hn; [|in_trace Hin..].
  rewrite (next_voice_found_truthy _ _ _ Hn) in Hin |- *.
  destruct (next_voice_found _ _ _ Hn) as (_ & d & -> & _).
  destruct (Py.assoc d "embedding") as [emb|] eqn:He.
  - rewrite (apply_voice_with_embedding d emb s He) in Hin |- *.
    unfold trace_of, state_of in *. simpl in *.
    destruct (is_agent_speaking s), (is_user_speaking s); simpl in Hin;
      in_trace Hin.
    injection Hin as -> ->. repeat split. by exists i, voices, d, emb.
  - rewrite (apply_voice_without_embedding d s He) in Hin. in_trace Hin.
Qed.

Lemma confirmation_only_when_applied_and_silent_witness :
  is_user_speaking sample_session = false
  ∧ is_agent_speaking sample_session = false
  ∧ voice (tts_opts (state_of (on_participant_attributes_changed
                                 (voice_changed "v1") (requester "v1")
                                 sample_session)))
    = PList [PInt 1; PInt 2].
Proof.
  destruct (confirmation_only_when_applied_and_silent
              sample_session (requester "v1") (voice_changed "v1")
              "How do I sound now?" true)
    as (_ & _ & Hu & Ha & _).
  - vm_compute. right. left.
  - split; [exact Hu|]. split; [exact Ha | reflexivity].
Defined.

(** The other direction: a matching voice with an embedding, requested
    while nobody speaks, does schedule the confirmation. *)
Lemma confirmation_scheduled_when_silent
    (s : session) (p : Participant) (changed : gmap string string)
    (i : string) (voices : list pyval) (d : list (string * pyval))
    (emb : pyval) :
  kind p = PARTICIPANT_KIND_STANDARD →
  is_Some (changed !! "voice") →
  attributes p !! "voice" = Some i → i ≠ "" →
  Py.iter (cartesia_voices s) = Ok voices →
  next_voice voices i = Ok (Some (PDict d)) →
  Py.assoc d "embedding" = Some emb →
  is_user_speaking s = false → is_agent_speaking s = false →
  trace_of (on_participant_attributes_changed changed p s)
  = [request_info p; CreateTaskSay "How do I sound now?" true].
Proof.
  intros Hk Hc Hv Hi Hit Hn He Hu Ha.
  rewrite (handler_lookup s p changed i voices Hk Hc Hv Hi Hit), Hn.
  rewrite (next_voice_found_truthy _ _ _ Hn).
  rewrite (apply_voice_with_embedding d emb s He), Hu, Ha. reflexivity.
Qed.

(** ** The session entrypoint, step by step *)

Section EntrypointFacts.

Variable default_model : string.
Variable default_language : pyval.
Variable say_before_start : result unit.
Variable float_repr : pyfloat → string.

(** The outcomes of [entrypoint], one per place where it can stop. *)
Lemma entrypoint_cases (userdata : gmap string pyval)
    (published : gmap string string) :
  entrypoint default_model default_language say_before_start float_repr
    userdata published
  = match read_userdata userdata with
    | Raise e => ([], published, Raise e)
    | Ok (knowledge_base, catalog) =>
    match userdata_getitem userdata "vad" with
    | Raise e => ([], published, Raise e)
    | Ok _ =>
    match first_greeting knowledge_base with
    | Raise e => ([], published, Raise e)
    | Ok greeting =>
    match say_before_start with
    | Raise e => ([Say greeting true], published, Raise e)
    | Ok _ =>
    match sorted_voices catalog with
    | Raise e => (Say greeting true :: setup_events, published, Raise e)
    | Ok voices =>
    match Json.dumps float_repr (PList voices) with
    | Raise e => (Say greeting true :: setup_events, published, Raise e)
    | Ok payload =>
        (Say greeting true :: setup_events
           ++ [SetAttributes [("voices", payload)]; AgentStart;
               Say generic_greeting true],
         <["voices" := payload]> published,
         Ok {| cartesia_voices := catalog;
               tts_opts := cartesia_TTS default_model default_language
                             "248be419-c632-4f23-adf1-5324ed7dbf1d";
               is_user_speaking := false;
               is_agent_speaking := false |})
    end end end end end end.
Proof.
  unfold entrypoint, mbind, M_bind, lift.
  destruct (read_userdata userdata) as [[kb catalog]|e]; [|reflexivity].
  destruct (userdata_getitem userdata "vad") as [vad|e]; [|reflexivity].
  destruct (first_greeting kb) as [g|e]; [|reflexivity].
  destruct say_before_start as [[]|e]; [|reflexivity].
  cbn -[Json.dumps sorted_voices].
  destruct (sorted_voices catalog) as [voices|e]; [|reflexivity].
  destruct (Json.dumps float_repr (PList voices)) as [payload|e]; [|reflexivity].
  cbn -[Json.dumps]. unfold set_attributes, mbind, M_bind, emit, modify. simpl.
  rewrite insert_empty, <- insert_union_singleton_l. reflexivity.
Qed.

End EntrypointFacts.

Lemma read_userdata_present (userdata : gmap string pyval) (catalog : pyval) :
  userdata !! "cartesia_voices" = Some catalog →
  read_userdata userdata
  = Ok (default (PDict []) (userdata !! "knowledge_base"), catalog).
Proof. intros H. unfold read_userdata, userdata_getitem. by rewrite H. Qed.

(** Once both required keys are there and the greeting text is
    computed, the greeting is the first thing the session does. *)
Lemma entrypoint_first_event (dm : string) (dl : pyval) (fs : result unit)
    (fr : pyfloat → string)
    (userdata : gmap string pyval) (published : gmap string string)
    (catalog vad : pyval) (greeting : string) :
  userdata !! "cartesia_voices" = Some catalog →
  userdata !! "vad" = Some vad →
  first_greeting (default (PDict []) (userdata !! "knowledge_base")) = Ok greeting →
  ∃ rest, trace_of (entrypoint dm dl fs fr userdata published)
          = Say greeting true :: rest.
Proof.
  intros Hc Hv Hg. rewrite entrypoint_cases, (read_userdata_present _ _ Hc).
  unfold userdata_getitem. rewrite Hv, Hg.
  destruct fs as [[]|e]; [|by eexists].
  destruct (sorted_voices catalog) as [voices|e]; [|by eexists].
  destruct (Json.dumps fr (PList voices)) as [payload|e]; by eexists.
Qed.





(** ** Reading the user data *)

(** C1.  Without the key ["cartesia_voices"] the session raises
    [KeyError] before it does anything else.  Without the key
    ["knowledge_base"] the read yields the empty mapping: the session
    behaves exactly as if [{}] were stored there, and with the two
    required keys present it goes on to speak the generic greeting. *)
Theorem missing_userdata_keys (dm : string) (dl : pyval) (fs : result unit)
    (fr : pyfloat → string)
    (userdata : gmap string pyval) (published : gmap string string) :
  (userdata !! "cartesia_voices" = None →
   entrypoint dm dl fs fr userdata published
   = ([], published, Raise (KeyError "cartesia_voices")))
  ∧ (userdata !! "knowledge_base" = None →
     (∀ catalog, userdata !! "cartesia_voices" = Some catalog →
                 read_userdata userdata = Ok (PDict [], catalog))
     ∧ entrypoint dm dl fs fr userdata published
       = entrypoint dm dl fs fr (<["knowledge_base" := PDict []]> userdata) published
     ∧ (∀ catalog vad,
          userdata !! "cartesia_voices" = Some catalog →
          userdata !! "vad" = Some vad →
          ∃ rest, trace_of (entrypoint dm dl fs fr userdata published)
                  = Say generic_greeting true :: rest)).
Proof.
  split.
  - intros H. rewrite entrypoint_cases. unfold read_userdata, userdata_getitem.
    by rewrite H.
  - intros Hkb. split; [|split].
    + intros catalog Hc. by rewrite (read_userdata_present _ _ Hc), Hkb.
    + rewrite !entrypoint_cases. unfold read_userdata, userdata_getitem.
      rewrite lookup_insert_eq, !lookup_insert_ne, Hkb by done. reflexivity.
    + intros catalog vad Hc Hv.
      apply (entrypoint_first_event dm dl fs fr userdata published catalog vad); try done.
      by rewrite Hkb.
Qed.

Lemma missing_userdata_keys_witness :
  entrypoint "sonic-english" (PStr "en") (Ok tt) sample_repr (delete "cartesia_voices" sample_userdata) ∅
  = ([], ∅, Raise (KeyError "cartesia_voices"))
  ∧ read_userdata sample_userdata
    = Ok (PDict [], PList [voice_tl_bare; voice_tl]).
Proof.
  split.
  - apply (proj1 (missing_userdata_keys "sonic-english" (PStr "en") (Ok tt) sample_repr
                    (delete "cartesia_voices" sample_userdata) ∅)).
    reflexivity.
  - destruct (proj2 (missing_userdata_keys "sonic-english" (PStr "en") (Ok tt) sample_repr
                       sample_userdata ∅)) as (H & _);
      [reflexivity|]. apply H. reflexivity.
Defined.

(** ** The greetings *)



(** C8.  In every session that reaches [agent.start], the start is
    followed at once, and last, by the generic greeting, whatever the
    first greeting [g] was; and a session that completes has reached
    it. *)
Theorem second_greeting_unconditional (dm : string) (dl : pyval) (fs : result unit)
    (fr : pyfloat → string)
    (userdata : gmap string pyval) (published : gmap string string) :
  (AgentStart ∈ trace_of (entrypoint dm dl fs fr userdata published) →
   ∃ g pre,
     first_greeting (default (PDict []) (userdata !! "knowledge_base")) = Ok g
     ∧ trace_of (entrypoint dm dl fs fr userdata published)
       = Say g true :: pre
           ++ [AgentStart; Say "Hi there, how are you doing today?" true]
     ∧ AgentStart ∉ pre)
  ∧ (is_Ok (value_of (entrypoint dm dl fs fr userdata published)) = true →
     AgentStart ∈ trace_of (entrypoint dm dl fs fr userdata published)).
Proof.
  rewrite entrypoint_cases. unfold read_userdata, userdata_getitem.
  destruct (userdata !! "cartesia_voices") as [catalog|];
    [|split; intros H; [in_trace H | discriminate H]].
  destruct (userdata !! "vad") as [vad|];
    [|split; intros H; [in_trace H | discriminate H]].
  cbn -[Json.dumps sorted_voices first_greeting].
  destruct (first_greeting _) as [g|e];
    [|split; intros H; [in_trace H | discriminate H]].
  destruct fs as [[]|e];
    [|split; intros H; [in_trace H | discriminate H]].
  destruct (sorted_voices catalog) as [voices|e];
    [|split; intros H; [in_trace H | discriminate H]].
  destruct (Json.dumps fr (PList voices)) as [payload|e];
    [|split; intros H; [in_trace H | discriminate H]].
  unfold trace_of. cbn [fst]. split.
  - intros _. exists g, (setup_events ++ [SetAttributes [("voices", payload)]]).
    split; [reflexivity|]. split; [reflexivity|].
    intros H. in_trace H.
  - intros _. simpl. do 8 right. left.
Qed.

Lemma second_greeting_unconditional_witness :
  ∃ g pre,
    trace_of (entrypoint "sonic-english" (PStr "en") (Ok tt) sample_repr
                (<["knowledge_base" := sample_knowledge_base]> sample_userdata) ∅)
    = Say g true :: pre
        ++ [AgentStart; Say "Hi there, how are you doing today?" true]
    ∧ g ≠ "Hi there, how are you doing today?".
Proof.
  destruct (proj1 (second_greeting_unconditional "sonic-english" (PStr "en") (Ok tt) sample_repr
                     (<["knowledge_base" := sample_knowledge_base]> sample_userdata)
                     ∅))
    as (g & pre & Hg & Ht & _).
  - vm_compute. do 8 right. left.
  - exists g, pre. split; [exact Ht|].
    vm_compute in Hg. injection Hg as <-. discriminate.
Defined.

(** ** The sort *)

(** *** How values compare

    The three laws of [Py.cmp]: read from the other side it gives the
    opposite answer, equal values compare alike with every third, and
    [Less] is transitive.  They make "not smaller" a total preorder on
    every set of keys that [<] orders. *)

Lemma pyval_ind' (P : pyval → Prop) :
  P PNone → (∀ b, P (PBool b)) → (∀ n, P (PInt n)) → (∀ f, P (PFloat f)) →
  (∀ s, P (PStr s)) →
  (∀ l, Forall P l → P (PList l)) →
  (∀ d, Forall (λ kv, P kv.2) d → P (PDict d)) →
  (∀ c, P (PObject c)) →
  ∀ v, P v.
Proof.
  intros HNone HBool HInt HFloat HStr HList HDict HObject. fix IH 1.
  intros [ | b | n | f | s | l | d | c ];
    [exact HNone | apply HBool | apply HInt | apply HFloat | apply HStr
     | | | apply HObject].
  - apply HList. induction l as [|x l IHl]; constructor; [apply IH | exact IHl].
  - apply HDict. induction d as [|[k x] d IHd]; constructor; [apply IH | exact IHd].
Qed.

Lemma of_comparison_opp (c : comparison) :
  Py.of_comparison (CompOpp c) = Py.opp (Py.of_comparison c).
Proof. by destruct c. Qed.

Lemma num_compare_opp (x y : Py.number) :
  Py.num_compare y x = CompOpp (Py.num_compare x y).
Proof.
  destruct x as [p|[]], y as [q|[]]; simpl; try reflexivity.
  symmetry. apply Qcompare_antisym.
Qed.

Lemma num_compare_eq (x y z : Py.number) :
  Py.num_compare x y = Eq → Py.num_compare x z = Py.num_compare y z.
Proof.
  destruct x as [p|[]], y as [q|[]]; simpl; try discriminate;
    destruct z as [r|[]]; simpl; try reflexivity.
  intros H%Qeq_alt. by rewrite H.
Qed.

Lemma num_compare_lt_trans (x y z : Py.number) :
  Py.num_compare x y = Lt → Py.num_compare y z = Lt → Py.num_compare x z = Lt.
Proof.
  destruct x as [p|[]], y as [q|[]]; simpl; try discriminate;
    destruct z as [r|[]]; simpl; try discriminate; try reflexivity.
  rewrite <- !Qlt_alt. apply Qlt_trans.
Qed.

Lemma str_compare_lt_trans (s t u : string) :
  String.compare s t = Lt → String.compare t u = Lt → String.compare s u = Lt.
Proof.
  intros H1 H2. apply String_as_OT.cmp_lt.
  apply (String_as_OT.lt_trans s t u); by apply String_as_OT.cmp_lt.
Qed.

Section LexFacts.
Context {A : Type} (f : A → A → Py.ordering).

Lemma lex_opp (l m : list A) :
  Forall (λ x, ∀ y, f y x = Py.opp (f x y)) l →
  Py.lex f m l = Py.opp (Py.lex f l m).
Proof.
  intros H. revert m. induction H as [|x l Hx _ IH]; intros [|y m]; simpl;
    try reflexivity.
  rewrite Hx. destruct (f x y); simpl; try reflexivity. apply IH.
Qed.

Lemma lex_equal (l m n : list A) :
  Forall (λ x, ∀ y z, f x y = Py.Equal → f x z = f y z) l →
  Py.lex f l m = Py.Equal → Py.lex f l n = Py.lex f m n.
Proof.
  intros H. revert m n.
  induction H as [|x l Hx _ IH]; intros [|y m] [|z n]; simpl;
    try discriminate; try reflexivity.
  destruct (f x y) eqn:Hxy; try discriminate. intros Hlm.
  rewrite (Hx y z Hxy). destruct (f y z); try reflexivity. by apply IH.
Qed.

Lemma lex_less_trans (l m n : list A) :
  (∀ x y, f y x = Py.opp (f x y)) →
  (∀ x y z, f x y = Py.Equal → f x z = f y z) →
  Forall (λ x, ∀ y z, f x y = Py.Less → f y z = Py.Less → f x z = Py.Less) l →
  Py.lex f l m = Py.Less → Py.lex f m n = Py.Less → Py.lex f l n = Py.Less.
Proof.
  intros Ho He Ht. revert m n.
  induction Ht as [|x l Hx _ IH]; intros [|y m] [|z n]; simpl;
    try discriminate; try reflexivity.
  destruct (f x y) eqn:Hxy; try discriminate.
  - intros _. destruct (f y z) eqn:Hyz; try discriminate.
    + by rewrite (Hx y z Hxy Hyz).
    + intros _. pose proof (He y z x Hyz) as H.
      rewrite (Ho x y), (Ho x z), Hxy in H. simpl in H.
      destruct (f x z); try discriminate. reflexivity.
  - rewrite (He x y z Hxy). destruct (f y z); try discriminate.
    + reflexivity.
    + apply IH.
Qed.

End LexFacts.

Lemma is_equal_true (o : Py.ordering) : Py.is_equal o = true ↔ o = Py.Equal.
Proof. destruct o; simpl; split; congruence. Qed.

Lemma assoc_some_in (d : list (string * pyval)) (k : string) (v : pyval) :
  Py.assoc d k = Some v → In (k, v) d.
Proof.
  induction d as [|[k' x] d IH]; simpl; [discriminate|].
  destruct (String.eqb k' k) eqn:E.
  - apply String.eqb_eq in E as ->. intros [= ->]. by left.
  - intros H. right. by apply IH.
Qed.

Lemma assoc_in_some (d : list (string * pyval)) (kv : string * pyval) :
  In kv d → ∃ v, Py.assoc d kv.1 = Some v.
Proof.
  induction d as [|[k' x] d IH]; simpl; [done|].
  intros [<- | H]; simpl.
  - rewrite String.eqb_refl. by eexists.
  - destruct (String.eqb k' kv.1); [by eexists | by apply IH].
Qed.

Lemma assoc_Forall (P : pyval → Prop) (d : list (string * pyval))
    (k : string) (v : pyval) :
  Forall (λ kv, P kv.2) d → Py.assoc d k = Some v → P v.
Proof.
  intros H Hv%assoc_some_in. rewrite List.Forall_forall in H. exact (H _ Hv).
Qed.

Section DictFacts.
Context (f : pyval → pyval → Py.ordering).

Lemma lookup_equal_spec (k : string) (w : pyval) (d : list (string * pyval)) :
  Py.lookup_equal f k w d
  = match Py.assoc d k with Some v => Py.is_equal (f v w) | None => false end.
Proof.
  induction d as [|[k' x] d IH]; simpl; [reflexivity|].
  by destruct (String.eqb k' k).
Qed.

Lemma dict_equal_spec (d e : list (string * pyval)) :
  Py.dict_equal f d e = true ↔ ∀ k, related f (Py.assoc d k) (Py.assoc e k).
Proof.
  unfold Py.dict_equal. rewrite andb_true_iff, !forallb_forall. split.
  - intros [Hd He] k. unfold related.
    destruct (Py.assoc d k) as [v|] eqn:Hv.
    + specialize (Hd _ (assoc_some_in d k v Hv)). simpl in Hd.
      destruct (Py.assoc e k) as [w|]; [|discriminate].
      rewrite lookup_equal_spec, Hv in Hd. by apply is_equal_true.
    + destruct (Py.assoc e k) as [w|] eqn:Hw; [|done].
      specialize (He _ (assoc_some_in e k w Hw)). simpl in He.
      by rewrite Hv in He.
  - intros H. split.
    + intros kv [v Hv]%assoc_in_some. specialize (H kv.1). rewrite Hv in H.
      unfold related in H. destruct (Py.assoc e kv.1) as [w|]; [|done].
      rewrite lookup_equal_spec, Hv. by apply is_equal_true.
    + intros kv [w Hw]%assoc_in_some. specialize (H kv.1). rewrite Hw in H.
      unfold related in H. by destruct (Py.assoc d kv.1).
Qed.

Lemma dict_equal_sym (d e : list (string * pyval)) :
  Forall (λ kv, ∀ w, f w kv.2 = Py.opp (f kv.2 w)) d →
  Py.dict_equal f e d = Py.dict_equal f d e.
Proof.
  intros H. apply eq_iff_eq_true. rewrite !dict_equal_spec.
  split; intros Hr k; specialize (Hr k); unfold related in *;
    destruct (Py.assoc d k) as [v|] eqn:Hv, (Py.assoc e k) as [w|]; try done;
    pose proof (assoc_Forall (λ v, ∀ w, f w v = Py.opp (f v w)) d k v H Hv w)
      as Ho; simpl in Ho.
  - rewrite Hr in Ho. simpl in Ho. by destruct (f v w).
  - by rewrite Ho, Hr.
Qed.

Lemma dict_equal_congr (d e g : list (string * pyval)) :
  Forall (λ kv, ∀ y z, f kv.2 y = Py.Equal → f kv.2 z = f y z) d →
  Py.dict_equal f d e = true →
  Py.dict_equal f d g = Py.dict_equal f e g.
Proof.
  intros H Hde. rewrite dict_equal_spec in Hde.
  apply eq_iff_eq_true. rewrite !dict_equal_spec.
  split; intros Hr k; specialize (Hr k); specialize (Hde k); unfold related in *;
    destruct (Py.assoc d k) as [v|] eqn:Hv, (Py.assoc e k) as [w|],
      (Py.assoc g k) as [x|]; try done;
    pose proof (assoc_Forall (λ v, ∀ y z, f v y = Py.Equal → f v z = f y z)
                  d k v H Hv w x Hde) as Hc; simpl in Hc;
    congruence.
Qed.

End DictFacts.

Lemma cmp_opp (a b : pyval) : Py.cmp b a = Py.opp (Py.cmp a b).
Proof.
  revert b. induction a as [ | x | n | f | s | l IH | d IH | c ] using pyval_ind';
    intros [ | y | m | g | t | l' | e | c' ]; try reflexivity;
    cbn [Py.cmp Py.as_number];
    try (rewrite num_compare_opp; apply of_comparison_opp).
  - rewrite (String.compare_antisym t s). apply of_comparison_opp.
  - by apply lex_opp.
  - rewrite (dict_equal_sym Py.cmp d e IH). by destruct (Py.dict_equal _ d e).
  - rewrite (String.eqb_sym c' c). by destruct (String.eqb c c').
Qed.

Lemma of_comparison_equal (c : comparison) :
  Py.of_comparison c = Py.Equal ↔ c = Eq.
Proof. destruct c; simpl; split; congruence. Qed.

Lemma of_comparison_less (c : comparison) :
  Py.of_comparison c = Py.Less ↔ c = Lt.
Proof. destruct c; simpl; split; congruence. Qed.

Lemma cmp_equal (a b c : pyval) :
  Py.cmp a b = Py.Equal → Py.cmp a c = Py.cmp b c.
Proof.
  revert b c.
  induction a as [ | x | n | f | s | l IH | d IH | o ] using pyval_ind';
    intros [ | y | m | g | t | l' | e | o' ] c; try discriminate;
    cbn [Py.cmp Py.as_number];
    try (intros H%of_comparison_equal;
         destruct (Py.as_number c); [|reflexivity];
         by rewrite (num_compare_eq _ _ _ H)).
  - reflexivity.
  - intros H%of_comparison_equal%String.compare_eq_iff. by subst.
  - intros H. destruct c; try reflexivity. cbn [Py.cmp]. by apply lex_equal.
  - destruct (Py.dict_equal Py.cmp d e) eqn:H; [intros _ | discriminate].
    destruct c as [ | | | | | | e' | ]; try reflexivity.
    cbn [Py.cmp]. by rewrite (dict_equal_congr Py.cmp d e e' IH H).
  - destruct (String.eqb o o') eqn:H; [intros _ | discriminate].
    apply String.eqb_eq in H. by subst.
Qed.

Lemma cmp_less_trans (a b c : pyval) :
  Py.cmp a b = Py.Less → Py.cmp b c = Py.Less → Py.cmp a c = Py.Less.
Proof.
  revert b c.
  induction a as [ | x | n | f | s | l IH | d IH | o ] using pyval_ind';
    intros [ | y | m | g | t | l' | e | o' ] c; try discriminate;
    cbn [Py.cmp Py.as_number];
    try (intros H%of_comparison_less;
         destruct (Py.as_number c); [|discriminate];
         intros H'%of_comparison_less; apply of_comparison_less;
         exact (num_compare_lt_trans _ _ _ H H')).
  - intros H%of_comparison_less. destruct c; try discriminate.
    cbn [Py.cmp]. intros H'%of_comparison_less. apply of_comparison_less.
    exact (str_compare_lt_trans _ _ _ H H').
  - intros H. destruct c; try discriminate.
    cbn [Py.cmp]. revert H. apply lex_less_trans; try done.
    + intros x y. apply cmp_opp.
    + exact cmp_equal.
  - by destruct (Py.dict_equal Py.cmp d e).
  - by destruct (String.eqb o o').
Qed.

Lemma orderable_sym (a b : pyval) : Py.orderable b a = Py.orderable a b.
Proof. by destruct a, b. Qed.

Lemma orderable_trans (a b c : pyval) :
  Py.orderable a b = true → Py.orderable b c = true → Py.orderable a c = true.
Proof. by destruct a, b, c. Qed.

Lemma lt_false (a b : pyval) :
  Py.lt a b = Ok false ↔
  Py.orderable a b = true ∧ (Py.cmp a b = Py.Equal ∨ Py.cmp a b = Py.Greater).
Proof.
  unfold Py.lt. destruct (Py.orderable a b); [|split; [discriminate | by intros []]].
  destruct (Py.cmp a b); split; try discriminate; try (by intros [_ [|]]);
    intros _; split; auto.
Qed.

Lemma lt_true (a b : pyval) :
  Py.lt a b = Ok true ↔ Py.orderable a b = true ∧ Py.cmp a b = Py.Less.
Proof.
  unfold Py.lt. destruct (Py.orderable a b); [|split; [discriminate | by intros []]].
  destruct (Py.cmp a b); split; try discriminate; try (by intros [_ ?]); done.
Qed.

Lemma not_lt_trans (a b c : pyval) :
  Py.lt b a = Ok false → Py.lt c b = Ok false → Py.lt c a = Ok false.
Proof.
  rewrite !lt_false. intros [Ho1 H1] [Ho2 H2].
  split; [exact (orderable_trans c b a Ho2 Ho1)|].
  destruct H2 as [H2|H2].
  - by rewrite (cmp_equal c b a H2).
  - right. assert (Py.cmp b c = Py.Less) as Hbc by (by rewrite cmp_opp, H2).
    assert (Py.cmp a c = Py.Less) as Hac.
    { destruct H1 as [H1|H1].
      - by rewrite <- (cmp_equal b a c H1).
      - apply (cmp_less_trans a b c); [|done]. by rewrite cmp_opp, H1. }
    by rewrite cmp_opp, Hac.
Qed.

Lemma lt_asym (a b : pyval) : Py.lt a b = Ok true → Py.lt b a = Ok false.
Proof.
  rewrite lt_true, lt_false. intros [Ho H]. rewrite orderable_sym, cmp_opp, H.
  split; [done | by right].
Qed.

Lemma cmp_str_refl (s : string) : Py.cmp (PStr s) (PStr s) = Py.Equal.
Proof.
  cbn [Py.cmp]. pose proof (String.compare_antisym s s) as H.
  by destruct (String.compare s s).
Qed.

Lemma lt_irrefl_str (s : string) : Py.lt (PStr s) (PStr s) = Ok false.
Proof. apply lt_false. split; [done|]. left. apply cmp_str_refl. Qed.

Lemma lt_strs (s t : string) : Py.lt (PStr s) (PStr t) = Ok (String.ltb s t).
Proof.
  unfold Py.lt, String.ltb. simpl. by destruct (String.compare s t).
Qed.

(** Of two keys equal to a third, neither is smaller. *)
Lemma lt_equal_keys (a b k : pyval) :
  Py.eq a k = true → Py.eq b k = true → Py.lt b a = Ok true → False.
Proof.
  unfold Py.eq. rewrite !is_equal_true, lt_true. intros Ha Hb [_ Hlt].
  rewrite (cmp_equal b k a Hb), cmp_opp, Ha in Hlt. discriminate.
Qed.

(** *** The insertion sort *)

Section SortFacts.
Context {A : Type}.

Lemma insert_perm (x : pyval * A) (l l' : list (pyval * A)) :
  Sort.insert x l = Ok l' → l' ≡ₚ x :: l.
Proof.
  revert l'. induction l as [|y r IH]; simpl; intros l'.
  - by intros [= <-].
  - destruct (Py.lt y.1 x.1) as [[|]|e]; simpl; try discriminate.
    + destruct (Sort.insert x r) as [r'|e]; simpl; [|discriminate].
      intros [= <-]. rewrite (IH r' eq_refl). apply Permutation_swap.
    + by intros [= <-].
Qed.

Lemma sort_keyed_perm (l l' : list (pyval * A)) :
  Sort.sort_keyed l = Ok l' → l' ≡ₚ l.
Proof.
  revert l'. induction l as [|x r IH]; simpl; intros l'.
  - by intros [= <-].
  - destruct (Sort.sort_keyed r) as [r'|e]; simpl; [|discriminate].
    intros H%insert_perm. by rewrite H, (IH r' eq_refl).
Qed.

Lemma insert_hd (a x : pyval * A) (l l' : list (pyval * A)) :
  Sort.insert x l = Ok l' → key_le a x → HdRel key_le a l → HdRel key_le a l'.
Proof.
  destruct l as [|y r]; simpl.
  - intros [= <-] Hx _. by constructor.
  - destruct (Py.lt y.1 x.1) as [[|]|e]; simpl; try discriminate.
    + destruct (Sort.insert x r) as [r'|e]; simpl; [|discriminate].
      intros [= <-] _ Hy. inversion Hy; subst. by constructor.
    + intros [= <-] Hx _. by constructor.
Qed.

Lemma insert_sorted (x : pyval * A) (l l' : list (pyval * A)) :
  Sort.insert x l = Ok l' → Sorted key_le l → Sorted key_le l'.
Proof.
  revert l'. induction l as [|y r IH]; simpl; intros l'.
  - intros [= <-] _. repeat constructor.
  - destruct (Py.lt y.1 x.1) as [[|]|e] eqn:Hlt; simpl; try discriminate.
    + destruct (Sort.insert x r) as [r'|e] eqn:Hr; simpl; [|discriminate].
      intros [= <-] Hs. inversion Hs as [|? ? Hs' Hhd]; subst.
      constructor; [by apply IH|].
      apply (insert_hd y x r r' Hr); [|done]. by apply lt_asym.
    + intros [= <-] Hs. constructor; [done|]. by constructor.
Qed.

Lemma sort_keyed_sorted (l l' : list (pyval * A)) :
  Sort.sort_keyed l = Ok l' → Sorted key_le l'.
Proof.
  revert l'. induction l as [|x r IH]; simpl; intros l'.
  - intros [= <-]. constructor.
  - destruct (Sort.sort_keyed r) as [r'|e]; simpl; [|discriminate].
    intros H. apply (insert_sorted x r' l' H). by apply IH.
Qed.

Lemma insert_stable (n : pyval) (x : pyval * A) (l l' : list (pyval * A)) :
  Sort.insert x l = Ok l' →
  List.filter (keyed_as n) l' = List.filter (keyed_as n) (x :: l).
Proof.
  revert l'. induction l as [|y r IH]; simpl; intros l'.
  - by intros [= <-].
  - destruct (Py.lt y.1 x.1) as [[|]|e] eqn:Hlt; simpl; try discriminate.
    + destruct (Sort.insert x r) as [r'|e]; simpl; [|discriminate].
      intros [= <-]. simpl. rewrite (IH r' eq_refl). simpl.
      destruct (keyed_as n x) eqn:Hx, (keyed_as n y) eqn:Hy; try reflexivity.
      destruct (lt_equal_keys x.1 y.1 n Hx Hy Hlt).
    + by intros [= <-].
Qed.

Lemma sort_keyed_stable (n : pyval) (l l' : list (pyval * A)) :
  Sort.sort_keyed l = Ok l' →
  List.filter (keyed_as n) l' = List.filter (keyed_as n) l.
Proof.
  revert l'. induction l as [|x r IH]; simpl; intros l'.
  - by intros [= <-].
  - destruct (Sort.sort_keyed r) as [r'|e]; simpl; [|discriminate].
    intros H%(insert_stable n). rewrite H. simpl. by rewrite (IH r' eq_refl).
Qed.

Lemma insert_total (x : pyval * A) (l : list (pyval * A)) :
  str_keyed x → Forall str_keyed l → ∃ l', Sort.insert x l = Ok l'.
Proof.
  intros [s Hx]. induction 1 as [|y r [t Hy] _ [r' IH]]; simpl; [by eexists|].
  rewrite Hx, Hy, lt_strs. simpl. destruct (String.ltb t s); simpl; [|by eexists].
  rewrite IH. by eexists.
Qed.

Lemma sort_keyed_total (l : list (pyval * A)) :
  Forall str_keyed l → ∃ l', Sort.sort_keyed l = Ok l'.
Proof.
  induction 1 as [|x r Hx Hr [r' IH]]; simpl; [by eexists|].
  rewrite IH. simpl. apply insert_total; [done|].
  apply sort_keyed_perm in IH. by rewrite IH.
Qed.

(** A sort returns only when [<] compares the keys each with each:
    that is when every sort that compares the neighbours of its result
    returns, and then all stable sorts agree. *)
Lemma sort_keyed_compares (l l' : list (pyval * A)) (x y : pyval * A) :
  Sort.sort_keyed l = Ok l' → x ∈ l → y ∈ l → x ≠ y →
  is_Ok (Py.lt x.1 y.1) = true.
Proof.
  intros Hs Hx Hy Hne.
  pose proof (sort_keyed_sorted l l' Hs) as Hsorted.
  apply Sorted_StronglySorted in Hsorted;
    [|intros a b c; unfold key_le; apply not_lt_trans].
  rewrite <- (sort_keyed_perm l l' Hs) in Hx, Hy. clear Hs.
  assert (∀ a b : pyval * A, key_le a b → is_Ok (Py.lt a.1 b.1) = true
                              ∧ is_Ok (Py.lt b.1 a.1) = true) as Hboth.
  { intros a b Hab. unfold key_le in Hab. rewrite Hab. split; [|done].
    apply lt_false in Hab as [Ho Hc]. unfold Py.lt.
    rewrite orderable_sym, Ho, cmp_opp. by destruct Hc as [-> | ->]. }
  revert x y Hx Hy Hne.
  induction Hsorted as [|a r _ IH Hall]; intros x y Hx Hy Hne;
    [by apply elem_of_nil in Hx|].
  rewrite List.Forall_forall in Hall.
  apply elem_of_cons in Hx as [->|Hx], Hy as [->|Hy].
  - done.
  - apply (Hboth a y), Hall. by apply list_elem_of_In.
  - apply (Hboth a x), Hall. by apply list_elem_of_In.
  - by apply IH.
Qed.

Lemma insert_defined (x : pyval * A) (l : list (pyval * A)) :
  Forall (λ y, is_Ok (Py.lt y.1 x.1) = true) l → ∃ l', Sort.insert x l = Ok l'.
Proof.
  induction 1 as [|y r Hy _ [r' IH]]; simpl; [by eexists|].
  destruct (Py.lt y.1 x.1) as [[|]|e]; [|by eexists | discriminate].
  simpl. rewrite IH. by eexists.
Qed.

(** Keys that [<] compares, each with each, can be sorted. *)
Lemma sort_keyed_defined (l : list (pyval * A)) :
  (∀ x y, x ∈ l → y ∈ l → is_Ok (Py.lt x.1 y.1) = true) →
  ∃ l', Sort.sort_keyed l = Ok l'.
Proof.
  induction l as [|x r IH]; intros H; simpl; [by eexists|].
  destruct IH as [r' Hr].
  { intros y z Hy Hz. apply H; by right. }
  rewrite Hr. simpl. apply insert_defined.
  apply sort_keyed_perm in Hr. rewrite Hr. apply Forall_forall.
  intros y Hy. apply H; [by right | left].
Qed.

End SortFacts.

Section SortByKey.
Context {A : Type} (key : A → result pyval).

Lemma traverse_keyed (l : list A) (keyed : list (pyval * A)) :
  Py.traverse (λ x, k ← key x; Ok (k, x)) l = Ok keyed →
  map snd keyed = l ∧ Forall (λ kx, key kx.2 = Ok kx.1) keyed.
Proof.
  revert keyed. induction l as [|x r IH]; simpl; intros keyed.
  - intros [= <-]. by split.
  - destruct (key x) as [k|e] eqn:Hk; simpl; [|discriminate].
    destruct (Py.traverse _ r) as [kr|e]; simpl; [|discriminate].
    intros [= <-]. destruct (IH kr eq_refl) as [Hm Hf].
    simpl. rewrite Hm. split; [reflexivity|]. by constructor.
Qed.

Lemma sorted_by_key (keyed : list (pyval * A)) :
  Forall (λ kx, key kx.2 = Ok kx.1) keyed →
  Sorted key_le keyed → Sorted (by_key key) (map snd keyed).
Proof.
  intros Hf Hs. induction Hs as [|a l Hs IH Hhd]; simpl; [constructor|].
  inversion Hf as [|? ? Ha Hl]; subst. constructor; [by apply IH|].
  destruct Hhd as [|b l' Hab]; simpl; constructor.
  inversion Hl as [|? ? Hb _]; subst. by exists a.1, b.1.
Qed.

Lemma filter_by_key (n : pyval) (keyed : list (pyval * A)) :
  Forall (λ kx, key kx.2 = Ok kx.1) keyed →
  List.filter (has_key key n) (map snd keyed)
  = map snd (List.filter (keyed_as n) keyed).
Proof.
  induction 1 as [|kx l Hk _ IH]; simpl; [reflexivity|].
  unfold has_key at 1. rewrite Hk. fold (keyed_as n kx).
  destruct (keyed_as n kx); simpl; by rewrite IH.
Qed.

Lemma by_key_trans (a b c : A) :
  by_key key a b → by_key key b c → by_key key a c.
Proof.
  intros (ka & kb & Ha & Hb & Hab) (kb' & kc & Hb' & Hc & Hbc).
  rewrite Hb in Hb'. injection Hb' as <-.
  exists ka, kc. repeat split; try done. by apply (not_lt_trans ka kb kc).
Qed.

(** What a sort that returns has produced: the same items, ordered so
    that no item has a smaller key than an item before it, equal keys in
    their original order. *)
Lemma sort_spec (l l' : list A) :
  Sort.sort key l = Ok l' →
  l' ≡ₚ l
  ∧ StronglySorted (by_key key) l'
  ∧ ∀ n, List.filter (has_key key n) l' = List.filter (has_key key n) l.
Proof.
  unfold Sort.sort.
  destruct (Py.traverse _ l) as [keyed|e] eqn:Hk; simpl; [|discriminate].
  destruct (Sort.sort_keyed keyed) as [sorted|e] eqn:Hs; simpl; [|discriminate].
  intros [= <-]. destruct (traverse_keyed l keyed Hk) as [Hm Hf].
  pose proof (sort_keyed_perm keyed sorted Hs) as Hp.
  assert (Forall (λ kx, key kx.2 = Ok kx.1) sorted) as Hf'
    by (by rewrite Hp).
  split; [|split].
  - rewrite <- Hm. by apply Permutation_map.
  - apply Sorted_StronglySorted; [exact by_key_trans|].
    apply sorted_by_key; [done|]. by apply (sort_keyed_sorted keyed).
  - intros n. rewrite <- Hm, !filter_by_key by done.
    by rewrite (sort_keyed_stable n keyed sorted Hs).
Qed.

Lemma sort_total (l : list A) :
  Forall (λ a, ∃ s, key a = Ok (PStr s)) l → ∃ l', Sort.sort key l = Ok l'.
Proof.
  intros Hl. unfold Sort.sort.
  assert (∃ keyed, Py.traverse (λ x, k ← key x; Ok (k, x)) l = Ok keyed
                   ∧ Forall str_keyed keyed) as (keyed & -> & Hk).
  { induction Hl as [|a r [s Ha] _ (kr & IH & Hkr)]; simpl; [by eexists|].
    rewrite Ha, IH. simpl. eexists. split; [reflexivity|].
    constructor; [by exists s | done]. }
  simpl. destruct (sort_keyed_total keyed Hk) as [sorted ->]. simpl. by eexists.
Qed.

Lemma sort_defined (l : list A) :
  Forall (λ a, is_Ok (key a) = true) l →
  (∀ a b ka kb, a ∈ l → b ∈ l → key a = Ok ka → key b = Ok kb →
                is_Ok (Py.lt ka kb) = true) →
  ∃ l', Sort.sort key l = Ok l'.
Proof.
  intros Hk Hlt. unfold Sort.sort.
  assert (∃ keyed, Py.traverse (λ x, k ← key x; Ok (k, x)) l = Ok keyed)
    as [keyed Ht].
  { clear Hlt. induction Hk as [|a r Ha _ [kr IH]]; simpl; [by eexists|].
    destruct (key a); [|discriminate]. simpl. rewrite IH. by eexists. }
  rewrite Ht. simpl. destruct (traverse_keyed l keyed Ht) as [Hm Hf].
  destruct (sort_keyed_defined keyed) as [sorted ->]; [|simpl; by eexists].
  rewrite List.Forall_forall in Hf.
  intros x y Hx Hy. apply (Hlt x.2 y.2).
  - rewrite <- Hm. apply list_elem_of_fmap. by exists x.
  - rewrite <- Hm. apply list_elem_of_fmap. by exists y.
  - apply Hf. by apply list_elem_of_In.
  - apply Hf. by apply list_elem_of_In.
Qed.

End SortByKey.

(** ** The published voice list *)

Lemma traverse_reduce (items reduced : list pyval) :
  Py.traverse reduce_voice items = Ok reduced → Forall2 reduced_from items reduced.
Proof.
  revert reduced. induction items as [|v r IH]; cbn [Py.traverse]; intros reduced.
  - intros [= <-]. constructor.
  - destruct (reduce_voice v) as [y|e] eqn:Hv; cbn [mbind result_bind];
      [|discriminate].
    destruct (Py.traverse reduce_voice r) as [rr|e]; cbn [mbind result_bind];
      [|discriminate].
    intros [= <-]. constructor; [|by apply IH].
    unfold reduce_voice in Hv.
    destruct (Py.getitem v "id") as [i|e] eqn:Hi; [|discriminate].
    destruct (Py.getitem v "name") as [n|e] eqn:Hn; [|discriminate].
    injection Hv as <-. by exists i, n.
Qed.








(** ** Sessions that complete *)

Lemma dumps_list (fr : pyfloat → string) (l : list pyval) :
  Forall (λ v, ∃ s, Json.dumps fr v = Ok s) l →
  ∃ s, Json.dumps fr (PList l) = Ok s.
Proof.
  intros H. cbn [Json.dumps].
  match goal with |- ∃ s, ?go l ≫= _ = _ =>
    assert (∃ items, go l = Ok items) as [items ->]
  end; [|by eexists].
  induction H as [|v r [s Hv] _ [items IH]]; [by eexists|].
  rewrite Hv. cbn [mbind result_bind]. rewrite IH. by eexists.
Qed.

Lemma sorted_voices_total (fr : pyfloat → string) (entries : list pyval) :
  Forall well_formed_entry entries →
  ∃ sorted payload,
    sorted_voices (PList entries) = Ok sorted
    ∧ Json.dumps fr (PList sorted) = Ok payload.
Proof.
  intros Hwf. unfold sorted_voices. cbn [Py.iter mbind result_bind].
  assert (∃ reduced,
            Py.traverse reduce_voice entries = Ok reduced
            ∧ Forall (λ r, ∃ i n, r = PDict [("id", PStr i); ("name", PStr n)])
                     reduced) as (reduced & -> & Hr).
  { induction Hwf as [|v r (i & n & Hi & Hn) _ (rr & IH & Hrr)];
      cbn [Py.traverse]; [by eexists|].
    assert (reduce_voice v = Ok (PDict [("id", PStr i); ("name", PStr n)]))
      as -> by (unfold reduce_voice; by rewrite Hi, Hn).
    rewrite IH. cbn [mbind result_bind]. eexists. split; [reflexivity|].
    constructor; [by exists i, n | done]. }
  cbn [mbind result_bind].
  destruct (sort_total name_of reduced) as [sorted Hs].
  { eapply Forall_impl; [exact Hr|]. intros r (i & n & ->). by exists n. }
  exists sorted. destruct (sort_spec name_of reduced sorted Hs) as (Hp & _).
  destruct (dumps_list fr sorted) as [payload Hd]; [|by exists payload].
  rewrite Hp. eapply Forall_impl; [exact Hr|].
  intros r (i & n & ->). by eexists.
Qed.

(** With the two required keys, a catalog of well-formed entries, a
    greeting that can be computed and a first greeting that returns,
    the session runs to its end. *)
Lemma entrypoint_completes (dm : string) (dl : pyval) (fr : pyfloat → string)
    (userdata : gmap string pyval) (published : gmap string string)
    (entries : list pyval) (vad : pyval) (g : string) :
  userdata !! "cartesia_voices" = Some (PList entries) →
  userdata !! "vad" = Some vad →
  first_greeting (default (PDict []) (userdata !! "knowledge_base")) = Ok g →
  Forall well_formed_entry entries →
  ∃ payload,
    entrypoint dm dl (Ok tt) fr userdata published
    = (Say g true :: setup_events
         ++ [SetAttributes [("voices", payload)]; AgentStart;
             Say generic_greeting true],
       <["voices" := payload]> published,
       Ok {| cartesia_voices := PList entries;
             tts_opts := cartesia_TTS dm dl "248be419-c632-4f23-adf1-5324ed7dbf1d";
             is_user_speaking := false;
             is_agent_speaking := false |}).
Proof.
  intros Hc Hv Hg Hwf. rewrite entrypoint_cases, (read_userdata_present _ _ Hc).
  unfold userdata_getitem. rewrite Hv, Hg.
  destruct (sorted_voices_total fr entries Hwf) as (sorted & payload & -> & ->).
  by exists payload.
Qed.

(** ** The startup preparer *)

Section PrewarmFacts.

Variable vad_load : result pyval.
Variable getenv : string → option string.
Variable requests_get : string → list (string * string) → result Response.

Lemma fetch_voices_cases (userdata : gmap string pyval) :
  fetch_voices getenv requests_get userdata
  = match requests_get "https://api.cartesia.ai/voices" (headers getenv) with
    | Raise e => ([], userdata, Raise e)
    | Ok response =>
        if status_code response =? 200 then
          match json response with
          | Ok body => ([], <["cartesia_voices" := body]> userdata, Ok tt)
          | Raise e => ([], userdata, Raise e)
          end
        else ([voices_warning response], userdata, Ok tt)
    end.
Proof.
  unfold fetch_voices, mbind, M_bind, lift.
  destruct (requests_get _ _) as [response|e]; [|reflexivity].
  destruct (status_code response =? 200); [|reflexivity].
  by destruct (json response).
Qed.

Lemma load_knowledge_base_ok (userdata : gmap string pyval)
    (response : Response) (body : pyval) :
  requests_get knowledge_base_url [] = Ok response →
  raise_for_status response = Ok tt →
  json response = Ok body →
  load_knowledge_base requests_get userdata
  = ([LogInfo "Knowledge base loaded successfully."],
     <["knowledge_base" := body]> userdata, Ok tt).
Proof.
  intros Hg Hr Hj.
  unfold load_knowledge_base, try_except_RequestException, mbind, M_bind, lift.
  by rewrite Hg, Hr, Hj.
Qed.

Lemma load_knowledge_base_fails (userdata : gmap string pyval) (msg : string) :
  knowledge_base_request_fails requests_get msg →
  load_knowledge_base requests_get userdata
  = ([knowledge_base_warning msg], userdata, Ok tt).
Proof.
  unfold load_knowledge_base, try_except_RequestException, mbind, M_bind, lift.
  intros [Hg | (response & Hg & [Hr | [Hr Hj]])].
  - by rewrite Hg.
  - by rewrite Hg, Hr.
  - by rewrite Hg, Hr, Hj.
Qed.

(** The knowledge-base step writes no key but its own. *)
Lemma load_knowledge_base_frame (userdata : gmap string pyval) (k : string) :
  k ≠ "knowledge_base" →
  state_of (load_knowledge_base requests_get userdata) !! k = userdata !! k.
Proof.
  intros Hk.
  unfold load_knowledge_base, try_except_RequestException, mbind, M_bind, lift,
    state_of.
  destruct (requests_get _ _) as [response|[]]; try reflexivity.
  destruct (raise_for_status response) as [[]|[]]; try reflexivity.
  destruct (json response) as [body|[]]; try reflexivity.
  cbn. by rewrite lookup_insert_ne.
Qed.

Lemma prewarm_cases (userdata : gmap string pyval) :
  prewarm vad_load getenv requests_get userdata
  = match vad_load with
    | Raise e => ([], userdata, Raise e)
    | Ok vad =>
        match fetch_voices getenv requests_get (<["vad" := vad]> userdata) with
        | (t, userdata', Ok _) =>
            let '(t', userdata'', r) :=
              load_knowledge_base requests_get userdata' in
            (t ++ t', userdata'', r)
        | (t, userdata', Raise e) => (t, userdata', Raise e)
        end
    end.
Proof.
  unfold prewarm, mbind at 1 2 3, M_bind, lift, modify.
  destruct vad_load as [vad|e]; [|reflexivity]. cbn [app].
  destruct (fetch_voices _ _ _) as [[t u] [[]|e]]; [|reflexivity].
  by destruct (load_knowledge_base _ _) as [[t' u'] r].
Qed.

End PrewarmFacts.

(** C7, as stated, fails: the catalog endpoint answers 200 with a body
    that does not decode, and the knowledge-base endpoint answers 200
    with a good body.  [response.json()] raises at line 34, outside any
    handler: the status is 200, yet nothing is stored under
    ["cartesia_voices"]; prewarm ends with the exception, and the
    knowledge base, whose fetch would succeed, is never fetched or
    stored. *)
Lemma undecodable_catalog_body_aborts :
  let o := prewarm (Ok (PObject "VAD")) (λ _, None) network_garbled ∅ in
  (∃ response,
     network_garbled "https://api.cartesia.ai/voices" (headers (λ _, None))
     = Ok response
     ∧ status_code response = 200)
  ∧ state_of o !! "cartesia_voices" = None
  ∧ (∃ response body,
       network_garbled "https://alex.aitekph.com/knowledgedata.json" []
       = Ok response
       ∧ raise_for_status response = Ok tt ∧ json response = Ok body)
  ∧ state_of o !! "knowledge_base" = None
  ∧ trace_of o = []
  ∧ value_of o = Raise (RequestException "Expecting value").
Proof.
  split; [eexists; split; reflexivity|]. split; [vm_compute; reflexivity|].
  split; [eexists _, _; repeat split; reflexivity|].
  split; [vm_compute; reflexivity|]. split; reflexivity.
Qed.

(** C7, amended.  In a prewarm whose VAD load succeeds and whose
    voice-catalog request returns a response: with status 200 and a body
    that decodes, the decoded body is stored under ["cartesia_voices"];
    with any other status the warning is logged and the key is left as
    it was, so for a body that decodes a key that was unset is set
    exactly when the status is 200; with status 200 and a body that does
    not decode, prewarm ends with the exception of the decoding, having
    stored the VAD model only and logged nothing.  When the catalog step
    completes, the knowledge-base step stores the decoded body under
    ["knowledge_base"] if the request, its status check and the decoding
    succeed, and on any request failure logs the warning, leaves the key
    as it was and lets prewarm return normally. *)
Theorem prewarm_fetches
    (vad_load : result pyval) (getenv : string → option string)
    (requests_get : string → list (string * string) → result Response)
    (userdata : gmap string pyval) (vad : pyval) (response : Response) :
  vad_load = Ok vad →
  requests_get "https://api.cartesia.ai/voices" (headers getenv) = Ok response →
  let o := prewarm vad_load getenv requests_get userdata in
  (∀ body, status_code response = 200 → json response = Ok body →
           state_of o !! "cartesia_voices" = Some body)
  ∧ (status_code response ≠ 200 →
     LogWarning ("Failed to fetch Cartesia voices: "
                 +:+ pretty (status_code response)) ∈ trace_of o
     ∧ state_of o !! "cartesia_voices" = userdata !! "cartesia_voices")
  ∧ (∀ body, userdata !! "cartesia_voices" = None → json response = Ok body →
             (state_of o !! "cartesia_voices" = Some body
              ↔ status_code response = 200))
  ∧ (∀ e, status_code response = 200 → json response = Raise e →
          o = ([], <["vad" := vad]> userdata, Raise e))
  ∧ ((status_code response = 200 → is_Ok (json response) = true) →
     (∀ kb_response body,
        requests_get "https://alex.aitekph.com/knowledgedata.json" []
        = Ok kb_response →
        raise_for_status kb_response = Ok tt →
        json kb_response = Ok body →
        state_of o !! "knowledge_base" = Some body ∧ value_of o = Ok tt)
     ∧ (∀ msg,
        knowledge_base_request_fails requests_get msg →
        LogWarning ("Failed to load knowledge base: " +:+ msg) ∈ trace_of o
        ∧ state_of o !! "knowledge_base" = userdata !! "knowledge_base"
        ∧ value_of o = Ok tt)).
Proof.
  intros Hvad Hget o.
  assert (∀ body, status_code response = 200 → json response = Ok body →
                  state_of o !! "cartesia_voices" = Some body) as Hstored.
  { intros body Hs Hj. subst o. rewrite prewarm_cases, Hvad, fetch_voices_cases.
    rewrite Hget, Hs, Hj. cbn [Z.eqb Pos.eqb].
    destruct (load_knowledge_base requests_get _) as [[t' u'] r] eqn:Hkb.
    unfold state_of. cbn [fst snd].
    change u' with (state_of (t', u', r)). rewrite <- Hkb.
    by rewrite load_knowledge_base_frame, lookup_insert_eq. }
  assert (status_code response ≠ 200 →
          LogWarning ("Failed to fetch Cartesia voices: "
                      +:+ pretty (status_code response)) ∈ trace_of o
          ∧ state_of o !! "cartesia_voices" = userdata !! "cartesia_voices")
    as Hwarned.
  { intros Hs. subst o. rewrite prewarm_cases, Hvad, fetch_voices_cases, Hget.
    apply Z.eqb_neq in Hs. rewrite Hs.
    destruct (load_knowledge_base requests_get _) as [[t' u'] r] eqn:Hkb.
    unfold trace_of, state_of. cbn [fst snd]. split; [left|].
    change u' with (state_of (t', u', r)). rewrite <- Hkb.
    by rewrite load_knowledge_base_frame, lookup_insert_ne. }
  split; [exact Hstored|]. split; [exact Hwarned|]. split; [|split].
  - intros body Hnone Hj. split; [|intros Hs; by apply Hstored].
    intros Hsome. destruct (decide (status_code response = 200)) as [|Hne]; [done|].
    destruct (Hwarned Hne) as [_ Hsame]. congruence.
  - intros e Hs Hj. subst o.
    by rewrite prewarm_cases, Hvad, fetch_voices_cases, Hget, Hs, Hj.
  - intros Hcompletes.
    assert (∃ t u, fetch_voices getenv requests_get (<["vad" := vad]> userdata)
                   = (t, u, Ok tt)
                   ∧ u !! "knowledge_base" = userdata !! "knowledge_base")
      as (t & u & Hfetch & Hu).
    { rewrite fetch_voices_cases, Hget.
      destruct (status_code response =? 200) eqn:Hs.
      - apply Z.eqb_eq in Hs. specialize (Hcompletes Hs).
        destruct (json response) as [body|e]; [|discriminate].
        eexists _, _. split; [reflexivity|]. by rewrite !lookup_insert_ne.
      - eexists _, _. split; [reflexivity|]. by rewrite lookup_insert_ne. }
    subst o. rewrite prewarm_cases, Hvad, Hfetch. split.
    + intros kb_response body Hg Hr Hj.
      rewrite (load_knowledge_base_ok requests_get u kb_response body Hg Hr Hj).
      unfold state_of, value_of. cbn [fst snd]. by rewrite lookup_insert_eq.
    + intros msg Hfail.
      rewrite (load_knowledge_base_fails requests_get u msg Hfail).
      unfold trace_of, state_of, value_of. cbn [fst snd].
      split; [|by split].
      apply elem_of_app. right. left.
Qed.

Lemma prewarm_fetches_witness :
  (let o := prewarm (Ok (PObject "VAD")) (λ _, None) network_down ∅ in
   LogWarning "Failed to fetch Cartesia voices: 503" ∈ trace_of o
   ∧ state_of o !! "cartesia_voices" = None
   ∧ LogWarning "Failed to load knowledge base: Connection refused" ∈ trace_of o
   ∧ state_of o !! "knowledge_base" = None)
  ∧ (let o := prewarm (Ok (PObject "VAD")) (λ _, None) network_up ∅ in
     state_of o !! "cartesia_voices" = Some (PList [voice_tl_bare; voice_tl])
     ∧ state_of o !! "knowledge_base" = Some sample_knowledge_base).
Proof.
  split.
  - destruct (prewarm_fetches (Ok (PObject "VAD")) (λ _, None) network_down ∅
                (PObject "VAD")
                (sample_response 503 (Raise (RequestException "Expecting value")))
                eq_refl eq_refl)
      as (_ & Hv & _ & _ & Hk).
    destruct (Hv ltac:(discriminate)) as [Hv1 Hv2].
    destruct Hk as [_ Hk]; [discriminate|].
    destruct (Hk "Connection refused") as (Hk1 & Hk2 & _); [by left|].
    exact (conj Hv1 (conj Hv2 (conj Hk1 Hk2))).
  - destruct (prewarm_fetches (Ok (PObject "VAD")) (λ _, None) network_up ∅
                (PObject "VAD")
                (sample_response 200 (Ok (PList [voice_tl_bare; voice_tl])))
                eq_refl eq_refl)
      as (Hv & _ & _ & _ & Hk).
    split; [by apply Hv|].
    destruct Hk as [Hk _]; [reflexivity|].
    by destruct (Hk (sample_response 200 (Ok sample_knowledge_base))
                   sample_knowledge_base eq_refl eq_refl eq_refl).
Defined.

(** * Scenarios *)

(** The catalog endpoint answers 503: prewarm leaves ["cartesia_voices"]
    unset and the session raises [KeyError] at once. *)
Example scenario_catalog_unavailable :
  entrypoint "sonic-english" (PStr "en") (Ok tt) sample_repr
    (state_of (prewarm (Ok (PObject "VAD")) (λ _, None) network_down ∅)) ∅
  = ([], ∅, Raise (KeyError "cartesia_voices")).
Proof. vm_compute. reflexivity. Qed.

(** Both fetches succeed and the first greeting returns: the session
    greets with the services, publishes the voice list and completes. *)
Example scenario_network_up :
  let o := entrypoint "sonic-english" (PStr "en") (Ok tt) sample_repr
             (state_of (prewarm (Ok (PObject "VAD")) (λ _, None) network_up ∅)) ∅ in
  head (trace_of o)
  = Some (Say "Hi there! I'm Alex, your Aitek PH assistant. Here to help you with services like Web Development, AI Automation. How can I assist you today?" true)
  ∧ last (trace_of o) = Some (Say "Hi there, how are you doing today?" true)
  ∧ is_Ok (value_of o) = true
  ∧ is_Some (state_of o !! "voices").
Proof. vm_compute. repeat split. by eexists. Qed.

(** Both fetches succeed and the first greeting is cancelled while it
    waits: the session has asked for the greeting and done nothing
    else. *)
Example scenario_greeting_cancelled :
  entrypoint "sonic-english" (PStr "en") (Raise CancelledError) sample_repr
    (state_of (prewarm (Ok (PObject "VAD")) (λ _, None) network_up ∅)) ∅
  = ([Say "Hi there! I'm Alex, your Aitek PH assistant. Here to help you with services like Web Development, AI Automation. How can I assist you today?" true],
     ∅, Raise CancelledError).
Proof. vm_compute. reflexivity. Qed.

(** Names that are numbers are ordered by their exact value, [1] and
    [True] being equal and kept in catalog order; the infinity is
    written as [json.dumps] writes it. *)
Example scenario_names_are_numbers :
  sorted_voices (PList catalog_of_numbers)
    ≫= (λ voices, Json.dumps sample_repr (PList voices))
  = Ok payload_numbers.
Proof. vm_compute. reflexivity. Qed.

(** Names that [<] does not compare make the sort raise: a string and a
    number, or two lists that differ first in such a pair. *)
Example scenario_names_do_not_compare :
  sorted_voices (PList [PDict [("id", PStr "a"); ("name", PStr "A")];
                        PDict [("id", PStr "b"); ("name", PInt 1)]])
  = Raise TypeError
  ∧ sorted_voices
      (PList [PDict [("id", PStr "a"); ("name", PList [PInt 1; PInt 5])];
              PDict [("id", PStr "b"); ("name", PList [PInt 2])];
              PDict [("id", PStr "c"); ("name", PList [PInt 1; PStr "s"])]])
    = Raise TypeError.
Proof. split; vm_compute; reflexivity. Qed.

(** A request for ["v1"] while nobody speaks: the adapter switches to the
    multilingual model and Tagalog, and the confirmation is scheduled. *)
Example scenario_voice_change :
  on_participant_attributes_changed (voice_changed "v1") (requester "v1")
    sample_session
  = ([LogInfo "participant user-1 requested voice change: v1";
      CreateTaskSay "How do I sound now?" true],
     set_tts_opts {| voice := PList [PInt 1; PInt 2];
                     model := "sonic-multilingual";
                     language := PStr "tl" |} sample_session,
     Ok tt).
Proof. reflexivity. Qed.

(** The same request while the agent speaks: the voice is applied but
    nothing is scheduled, until the agent has stopped. *)
Example scenario_agent_speaking :
  let speaking := state_of (agent_started_speaking sample_session) in
  let request :=
    on_participant_attributes_changed (voice_changed "v1") (requester "v1") in
  trace_of (request speaking)
  = [LogInfo "participant user-1 requested voice change: v1"]
  ∧ model (tts_opts (state_of (request speaking))) = "sonic-multilingual"
  ∧ trace_of (request (state_of (agent_stopped_speaking speaking)))
    = [LogInfo "participant user-1 requested voice change: v1";
       CreateTaskSay "How do I sound now?" true].
Proof. repeat split. Qed.

(** Events of a participant that is not of the standard kind are
    ignored. *)
Example scenario_agent_participant :
  on_participant_attributes_changed (voice_changed "v1")
    {| kind := PARTICIPANT_KIND_AGENT; identity := "agent-1";
       attributes := {[ "voice" := "v1" ]} |}
    sample_session
  = ([], sample_session, Ok tt).
Proof. reflexivity. Qed.

(** * Further properties of the handler *)

Lemma iter_error (v : pyval) (e : exn) : Py.iter v = Raise e → e = TypeError.
Proof. destruct v; simpl; congruence. Qed.

Lemma getitem_error (v : pyval) (k : string) (e : exn) :
  Py.getitem v k = Raise e → e = TypeError ∨ e = KeyError k.
Proof.
  destruct v; simpl; try (intros [= <-]; by left).
  destruct (Py.assoc d k); [discriminate|]. intros [= <-]. by right.
Qed.

Lemma next_voice_error (voices : list pyval) (i : string) (e : exn) :
  next_voice voices i = Raise e → e = TypeError ∨ e = KeyError "id".
Proof.
  induction voices as [|v r IH]; simpl; [discriminate|].
  destruct (Py.getitem v "id") as [x|e'] eqn:Hv; simpl.
  - destruct (Py.eq_str x i); [discriminate | exact IH].
  - intros [= <-]. by apply (getitem_error v "id").
Qed.

(** The handler always ends in one of the ways [handled] lists. *)
Lemma handler_handled (changed : gmap string string) (p : Participant)
    (s : session) :
  handled changed p s (on_participant_attributes_changed changed p s).
Proof.
  destruct (decide (kind p = PARTICIPANT_KIND_STANDARD)) as [Hk|Hk];
    [|rewrite handler_ignores_other_kinds by done; constructor; by left].
  destruct (changed !! "voice") as [c|] eqn:Hc;
    [|rewrite handler_ignores_other_attributes by done; constructor; by right].
  assert (is_Some (changed !! "voice")) as Hc' by (rewrite Hc; eauto).
  destruct (attributes p !! "voice") as [i|] eqn:Hv; cycle 1.
  { replace (on_participant_attributes_changed changed p s)
      with ([request_info p], s, Ok tt).
    - apply handled_empty; auto.
    - unfold on_participant_attributes_changed, request_info.
      by rewrite Hk, (bool_decide_eq_true_2 _ Hc'), Hv. }
  destruct (decide (i = "")) as [->|Hi].
  { replace (on_participant_attributes_changed changed p s)
      with ([request_info p], s, Ok tt).
    - apply handled_empty; auto.
    - unfold on_participant_attributes_changed, request_info.
      by rewrite Hk, (bool_decide_eq_true_2 _ Hc'), Hv. }
  destruct (Py.iter (cartesia_voices s)) as [voices|e] eqn:Hit.
  2: { rewrite (handler_catalog_not_iterable s p changed i e) by done.
       apply (handled_raised changed p s i e); auto. }
  rewrite (handler_lookup s p changed i voices Hk Hc' Hv Hi Hit).
  destruct (next_voice voices i) as [[v|]|e] eqn:Hn.
  - rewrite (next_voice_found_truthy _ _ _ Hn).
    destruct (next_voice_found _ _ _ Hn) as (_ & d & -> & _).
    destruct (Py.assoc d "embedding") as [emb|] eqn:He.
    + rewrite (apply_voice_with_embedding d emb s He).
      by apply (handled_applied changed p s i voices d emb).
    + rewrite (apply_voice_without_embedding d s He).
      by apply (handled_bare changed p s i voices d).
  - by apply (handled_unknown changed p s i voices).
  - apply (handled_raised changed p s i e); eauto.
Qed.

(** X1.  The handler is silent exactly for events it ignores: its trace
    is empty if and only if the participant is not of the standard kind
    or ["voice"] is not among the changed attributes, and then the session
    is untouched.  Every other event is at least logged. *)
Theorem handler_silent_iff_ignored (changed : gmap string string)
    (p : Participant) (s : session) :
  let o := on_participant_attributes_changed changed p s in
  (trace_of o = []
   ↔ kind p ≠ PARTICIPANT_KIND_STANDARD ∨ changed !! "voice" = None)
  ∧ (trace_of o = [] → o = ([], s, Ok tt))
  ∧ (trace_of o ≠ [] → head (trace_of o) = Some (request_info p)).
Proof.
  cbv zeta.
  destruct (handler_handled changed p s)
    as [Hig | Hk [c Hc] _ | i e Hk [c Hc] _ _ _ | i voices Hk [c Hc] _ _ _ _
        | i voices d Hk [c Hc] _ _ _ _ _ | i voices d emb Hk [c Hc] _ _ _ _ _];
    unfold trace_of; cbn [fst snd].
  1: { repeat split; auto. intros H. by destruct H. }
  all: split; [split; [discriminate | intros [H|H]; congruence]|].
  all: split; [discriminate | reflexivity].
Qed.

(** X2.  Whatever the event and the catalog, the handler writes only the
    synthesis options: both speaking flags and the catalog it closed over
    are as before. *)
Theorem handler_keeps_flags_and_catalog (changed : gmap string string)
    (p : Participant) (s : session) :
  let s' := state_of (on_participant_attributes_changed changed p s) in
  is_user_speaking s' = is_user_speaking s
  ∧ is_agent_speaking s' = is_agent_speaking s
  ∧ cartesia_voices s' = cartesia_voices s.
Proof.
  cbv zeta. by destruct (handler_handled changed p s).
Qed.

(** X3.  When the handler raises, it has changed nothing: the session is
    as before, the only event is the info record of the request, and the
    exception is a [TypeError] or the [KeyError] of a missing ["id"]. *)
Theorem handler_exception_safe (changed : gmap string string)
    (p : Participant) (s : session) (e : exn) :
  value_of (on_participant_attributes_changed changed p s) = Raise e →
  state_of (on_participant_attributes_changed changed p s) = s
  ∧ trace_of (on_participant_attributes_changed changed p s)
    = [LogInfo ("participant " +:+ identity p +:+ " requested voice change: "
                +:+ Py.format_opt (attributes p !! "voice"))]
  ∧ (e = TypeError ∨ e = KeyError "id").
Proof.
  destruct (handler_handled changed p s)
    as [| | i e' _ _ _ _ Hr | | |]; unfold value_of; cbn [snd]; try discriminate.
  intros [= ->]. repeat split.
  destruct Hr as [Hr | (voices & _ & Hr)].
  - left. by apply (iter_error (cartesia_voices s)).
  - by apply (next_voice_error voices i).
Qed.

Lemma handler_exception_safe_witness :
  let s := session_with (PList [entry_without_id; voice_tl]) in
  state_of (on_participant_attributes_changed (voice_changed "v1")
              (requester "v1") s) = s.
Proof.
  cbv zeta.
  apply (handler_exception_safe (voice_changed "v1") (requester "v1") _
           (KeyError "id")).
  reflexivity.
Defined.

Lemma next_voice_app (pre post : list pyval) (i : string) :
  no_entry_with_id pre i →
  next_voice (pre ++ post) i = next_voice post i.
Proof.
  induction 1 as [|v r (x & Hx & Hne) _ IH]; simpl; [reflexivity|].
  rewrite Hx. simpl. apply eq_str_false in Hne. by rewrite Hne.
Qed.

Lemma next_voice_first_match (pre post : list pyval) (i : string)
    (d : list (string * pyval)) :
  no_entry_with_id pre i → Py.assoc d "id" = Some (PStr i) →
  next_voice (pre ++ PDict d :: post) i = Ok (Some (PDict d)).
Proof.
  intros Hpre Hd. rewrite (next_voice_app pre _ i Hpre). simpl.
  rewrite Hd. simpl. by rewrite String.eqb_refl.
Qed.

(** X4.  The lookup stops at the first entry that carries the requested
    identifier: whatever follows that entry in the catalog (duplicates of
    the identifier, entries without ["id"], values that are no entries at
    all) changes neither the events, nor the value, nor the options the
    handler leaves. *)
Theorem entries_after_match_unread (changed : gmap string string)
    (p : Participant) (s : session) (i : string) (pre post post' : list pyval)
    (d : list (string * pyval)) :
  kind p = PARTICIPANT_KIND_STANDARD →
  is_Some (changed !! "voice") →
  attributes p !! "voice" = Some i → i ≠ "" →
  cartesia_voices s = PList (pre ++ PDict d :: post) →
  no_entry_with_id pre i →
  Py.assoc d "id" = Some (PStr i) →
  let s' := {| cartesia_voices := PList (pre ++ PDict d :: post');
               tts_opts := tts_opts s;
               is_user_speaking := is_user_speaking s;
               is_agent_speaking := is_agent_speaking s |} in
  let o := on_participant_attributes_changed changed p s in
  let o' := on_participant_attributes_changed changed p s' in
  value_of o = Ok tt
  ∧ trace_of o' = trace_of o ∧ value_of o' = value_of o
  ∧ tts_opts (state_of o') = tts_opts (state_of o).
Proof.
  intros Hk Hc Hv Hi Hcat Hpre Hd s' o o'. subst o o'.
  assert (Py.iter (cartesia_voices s) = Ok (pre ++ PDict d :: post)) as Hit
    by (by rewrite Hcat).
  assert (Py.iter (cartesia_voices s') = Ok (pre ++ PDict d :: post')) as Hit'
    by reflexivity.
  pose proof (next_voice_first_match pre post i d Hpre Hd) as Hn.
  pose proof (next_voice_first_match pre post' i d Hpre Hd) as Hn'.
  rewrite (handler_lookup s p changed i _ Hk Hc Hv Hi Hit), Hn.
  rewrite (handler_lookup s' p changed i _ Hk Hc Hv Hi Hit'), Hn'.
  cbn [Py.truthy]. destruct d as [|kv d']; [discriminate|].
  destruct (Py.assoc (kv :: d') "embedding") as [emb|] eqn:He.
  - rewrite !(apply_voice_with_embedding (kv :: d') emb) by done.
    by repeat split.
  - rewrite !(apply_voice_without_embedding (kv :: d')) by done.
    by repeat split.
Qed.

Lemma entries_after_match_unread_witness :
  let o := on_participant_attributes_changed (voice_changed "v1")
             (requester "v1") (session_with (PList [voice_tl; voice_tl_bare])) in
  let o' := on_participant_attributes_changed (voice_changed "v1")
              (requester "v1")
              (session_with (PList [voice_tl; entry_without_id; PInt 7])) in
  trace_of o' = trace_of o ∧ tts_opts (state_of o') = tts_opts (state_of o).
Proof.
  cbv zeta.
  destruct (entries_after_match_unread (voice_changed "v1") (requester "v1")
              (session_with (PList [voice_tl; voice_tl_bare])) "v1"
              [] [voice_tl_bare] [entry_without_id; PInt 7]
              [("id", PStr "v1"); ("name", PStr "A");
               ("embedding", PList [PInt 1; PInt 2]); ("language", PStr "tl")])
    as (_ & Ht & _ & Ho);
    try reflexivity; try discriminate; [by eexists | constructor |].
  exact (conj Ht Ho).
Defined.

(** X5.  An entry that has no ["id"] (or is no [dict]) and stands before
    the first match makes the handler raise, [KeyError] or [TypeError],
    even when a matching entry follows; the session is left as it was and
    no warning is logged. *)
Theorem entry_without_id_before_match (changed : gmap string string)
    (p : Participant) (s : session) (i : string) (pre post : list pyval)
    (bad : pyval) (e : exn) :
  kind p = PARTICIPANT_KIND_STANDARD →
  is_Some (changed !! "voice") →
  attributes p !! "voice" = Some i → i ≠ "" →
  cartesia_voices s = PList (pre ++ bad :: post) →
  no_entry_with_id pre i →
  Py.getitem bad "id" = Raise e →
  on_participant_attributes_changed changed p s
  = ([LogInfo ("participant " +:+ identity p +:+ " requested voice change: "
               +:+ i)],
     s, Raise e).
Proof.
  intros Hk Hc Hv Hi Hcat Hpre Hbad.
  assert (Py.iter (cartesia_voices s) = Ok (pre ++ bad :: post)) as Hit
    by (by rewrite Hcat).
  rewrite (handler_lookup s p changed i _ Hk Hc Hv Hi Hit).
  rewrite (next_voice_app pre _ i Hpre). simpl. rewrite Hbad. simpl.
  unfold request_info. by rewrite Hv.
Qed.

Lemma entry_without_id_before_match_witness :
  on_participant_attributes_changed (voice_changed "v1") (requester "v1")
    (session_with (PList [voice_tl_bare; entry_without_id; voice_tl]))
  = ([LogInfo "participant user-1 requested voice change: v1"],
     session_with (PList [voice_tl_bare; entry_without_id; voice_tl]),
     Raise (KeyError "id")).
Proof.
  apply (entry_without_id_before_match (voice_changed "v1") (requester "v1")
           _ "v1" [voice_tl_bare] [voice_tl] entry_without_id);
    try reflexivity; try discriminate; [by eexists|].
  repeat constructor. eexists. split; [reflexivity | discriminate].
Defined.

(** X6.  The requested identifier is read from the participant's current
    attributes; of the changed attributes only the presence of the key
    ["voice"] matters, not the value that came with it. *)
Theorem changed_value_ignored (changed changed' : gmap string string)
    (p : Participant) (s : session) :
  is_Some (changed !! "voice") → is_Some (changed' !! "voice") →
  on_participant_attributes_changed changed p s
  = on_participant_attributes_changed changed' p s.
Proof.
  intros Hc Hc'. unfold on_participant_attributes_changed.
  by rewrite (bool_decide_eq_true_2 _ Hc), (bool_decide_eq_true_2 _ Hc').
Qed.

Lemma changed_value_ignored_witness :
  on_participant_attributes_changed (voice_changed "v2") (requester "v1")
    sample_session
  = on_participant_attributes_changed (voice_changed "v1") (requester "v1")
      sample_session.
Proof.
  apply changed_value_ignored; by eexists.
Defined.

(** X7.  Handling the same event again changes nothing more: run on the
    session it has just left, the handler produces the same events and
    value and leaves that session as it is. *)
Theorem handler_idempotent (changed : gmap string string) (p : Participant)
    (s : session) :
  on_participant_attributes_changed changed p
    (state_of (on_participant_attributes_changed changed p s))
  = on_participant_attributes_changed changed p s.
Proof.
  pose proof (handler_handled changed p s) as H.
  remember (on_participant_attributes_changed changed p s) as o eqn:Ho.
  destruct H as [| | | | | i voices d emb Hk Hc Hv Hi Hit Hn He];
    unfold state_of; cbn [fst snd]; try (by rewrite Ho).
  set (s' := set_tts_opts _ s).
  assert (Py.iter (cartesia_voices s') = Ok voices) as Hit' by exact Hit.
  rewrite (handler_lookup s' p changed i voices Hk Hc Hv Hi Hit'), Hn.
  rewrite (next_voice_found_truthy _ _ _ Hn).
  by rewrite (apply_voice_with_embedding d emb s' He).
Qed.

(** X8.  The options an applied voice leaves depend on the catalog entry
    alone: nothing of the previous voice, model or language survives, so
    going from a multilingual voice to an English one resets the model
    and the language. *)
Theorem applied_options_forget_previous (changed : gmap string string)
    (p : Participant) (s1 s2 : session) (i : string) (voices : list pyval)
    (d : list (string * pyval)) (emb : pyval) :
  kind p = PARTICIPANT_KIND_STANDARD →
  is_Some (changed !! "voice") →
  attributes p !! "voice" = Some i → i ≠ "" →
  Py.iter (cartesia_voices s1) = Ok voices →
  Py.iter (cartesia_voices s2) = Ok voices →
  next_voice voices i = Ok (Some (PDict d)) →
  Py.assoc d "embedding" = Some emb →
  tts_opts (state_of (on_participant_attributes_changed changed p s1))
  = tts_opts (state_of (on_participant_attributes_changed changed p s2)).
Proof.
  intros Hk Hc Hv Hi H1 H2 Hn He.
  rewrite (handler_lookup s1 p changed i voices Hk Hc Hv Hi H1).
  rewrite (handler_lookup s2 p changed i voices Hk Hc Hv Hi H2).
  rewrite Hn, (next_voice_found_truthy _ _ _ Hn).
  by rewrite !(apply_voice_with_embedding d emb) by done.
Qed.

Lemma applied_options_forget_previous_witness :
  let catalog := PList [voice_tl; voice_en] in
  let after_tl :=
    state_of (on_participant_attributes_changed (voice_changed "v1")
                (requester "v1") (session_with catalog)) in
  model (tts_opts after_tl) = "sonic-multilingual"
  ∧ tts_opts (state_of (on_participant_attributes_changed (voice_changed "v3")
                          (requester "v3") after_tl))
    = {| voice := PList [PInt 3]; model := "sonic-english";
         language := PStr "en" |}.
Proof.
  cbv zeta. split; [reflexivity|].
  rewrite (applied_options_forget_previous (voice_changed "v3") (requester "v3")
             _ (session_with (PList [voice_tl; voice_en])) "v3"
             [voice_tl; voice_en]
             [("id", PStr "v3"); ("name", PStr "C");
              ("embedding", PList [PInt 3]); ("language", PStr "en")]
             (PList [PInt 3]));
    try reflexivity; try discriminate; by eexists.
Defined.

Lemma chosen_consistent (d : list (string * pyval)) (emb : pyval) :
  consistent_opts {| voice := emb; model := (chosen d).1;
                     language := (chosen d).2 |}.
Proof.
  unfold consistent_opts, chosen.
  destruct (Py.assoc d "language") as [l|]; [|by left].
  destruct (Py.eq_str l "en") eqn:Hl; [by left | right].
  apply eq_str_false in Hl. by split.
Qed.

(** X9.  The handler never leaves a model that does not fit the language:
    either it does not touch the options, or it leaves
    ["sonic-english"] with ["en"], or ["sonic-multilingual"] with a
    language other than ["en"] (which may be any JSON value the entry
    declares, [null] included). *)
Theorem handler_options_consistent (changed : gmap string string)
    (p : Participant) (s : session) :
  let o := tts_opts (state_of (on_participant_attributes_changed changed p s)) in
  o = tts_opts s
  ∨ (model o = "sonic-english" ∧ language o = PStr "en")
  ∨ (model o = "sonic-multilingual" ∧ language o ≠ PStr "en").
Proof.
  cbv zeta.
  destruct (handler_handled changed p s) as [| | | | | i voices d emb];
    unfold state_of; cbn [fst snd]; try (by left).
  right. apply (chosen_consistent d emb).
Qed.

(** X10.  A voice that is found and has an embedding is always applied;
    the confirmation follows the info record exactly when neither flag
    is set, and while the user or the agent speaks the voice changes
    without any utterance being scheduled. *)
Theorem applied_voice_trace (changed : gmap string string)
    (p : Participant) (s : session) (i : string) (voices : list pyval)
    (d : list (string * pyval)) (emb : pyval) :
  kind p = PARTICIPANT_KIND_STANDARD →
  is_Some (changed !! "voice") →
  attributes p !! "voice" = Some i → i ≠ "" →
  Py.iter (cartesia_voices s) = Ok voices →
  next_voice voices i = Ok (Some (PDict d)) →
  Py.assoc d "embedding" = Some emb →
  let o := on_participant_attributes_changed changed p s in
  let info := LogInfo ("participant " +:+ identity p
                       +:+ " requested voice change: " +:+ i) in
  voice (tts_opts (state_of o)) = emb
  ∧ value_of o = Ok tt
  ∧ (is_user_speaking s = false ∧ is_agent_speaking s = false →
     trace_of o = [info; CreateTaskSay "How do I sound now?" true])
  ∧ (is_user_speaking s = true ∨ is_agent_speaking s = true →
     trace_of o = [info]).
Proof.
  intros Hk Hc Hv Hi Hit Hn He. cbv zeta.
  rewrite (handler_lookup s p changed i voices Hk Hc Hv Hi Hit), Hn.
  rewrite (next_voice_found_truthy _ _ _ Hn).
  rewrite (apply_voice_with_embedding d emb s He).
  unfold request_info, trace_of, state_of, value_of. rewrite Hv. cbn [fst snd].
  repeat split.
  - intros [-> ->]. reflexivity.
  - intros [-> | ->]; [|reflexivity]. by destruct (is_agent_speaking s).
Qed.

Lemma applied_voice_trace_witness :
  let busy := state_of (user_started_speaking sample_session) in
  let o := on_participant_attributes_changed (voice_changed "v1")
             (requester "v1") busy in
  voice (tts_opts (state_of o)) = PList [PInt 1; PInt 2]
  ∧ trace_of o = [LogInfo "participant user-1 requested voice change: v1"].
Proof.
  cbv zeta.
  destruct (applied_voice_trace (voice_changed "v1") (requester "v1")
              (state_of (user_started_speaking sample_session)) "v1"
              [voice_tl; voice_tl_bare]
              [("id", PStr "v1"); ("name", PStr "A");
               ("embedding", PList [PInt 1; PInt 2]); ("language", PStr "tl")]
              (PList [PInt 1; PInt 2]))
    as (Hvoice & _ & _ & Hbusy);
    try reflexivity; try discriminate; [by eexists|].
  split; [exact Hvoice|]. apply Hbusy. left. reflexivity.
Defined.

(** ** The speaking callbacks *)

Lemma fire_state (ev : speaking_event) (s : session) :
  state_of (fire ev s)
  = match ev with
    | AgentStartedSpeaking => set_is_agent_speaking true s
    | AgentStoppedSpeaking => set_is_agent_speaking false s
    | UserStartedSpeaking => set_is_user_speaking true s
    | UserStoppedSpeaking => set_is_user_speaking false s
    end.
Proof. by destruct ev. Qed.

Lemma after_speaking_spec (evs : list speaking_event) (s : session) :
  is_agent_speaking (after_speaking evs s) = last_agent evs (is_agent_speaking s)
  ∧ is_user_speaking (after_speaking evs s) = last_user evs (is_user_speaking s)
  ∧ tts_opts (after_speaking evs s) = tts_opts s
  ∧ cartesia_voices (after_speaking evs s) = cartesia_voices s.
Proof.
  unfold after_speaking. revert s.
  induction evs as [|ev evs IH]; intros s; [done|].
  cbn [fold_left]. destruct (IH (state_of (fire ev s))) as (Ha & Hu & Ho & Hc).
  rewrite Ha, Hu, Ho, Hc, fire_state. by destruct ev.
Qed.

(** X11.  After any sequence of speaking callbacks, each flag is what
    the last callback of its own kind said (or what it was, if there was
    none): the agent's callbacks never move the user's flag, nor the
    reverse, and none of them touches the synthesis options or the
    catalog. *)
Theorem flags_follow_last_callback (evs : list speaking_event) (s : session) :
  let s' := after_speaking evs s in
  is_agent_speaking s' = last_agent evs (is_agent_speaking s)
  ∧ is_user_speaking s' = last_user evs (is_user_speaking s)
  ∧ tts_opts s' = tts_opts s
  ∧ cartesia_voices s' = cartesia_voices s.
Proof. exact (after_speaking_spec evs s). Qed.

(** X12.  Between the callbacks and the handler: after any sequence of
    speaking callbacks, a request for a voice that is found with an
    embedding schedules the confirmation if and only if the last agent
    callback and the last user callback both were a stop (or there was
    none and the flag was clear). *)
Theorem confirmation_after_callbacks (evs : list speaking_event)
    (changed : gmap string string) (p : Participant) (s : session)
    (i : string) (voices : list pyval) (d : list (string * pyval))
    (emb : pyval) :
  kind p = PARTICIPANT_KIND_STANDARD →
  is_Some (changed !! "voice") →
  attributes p !! "voice" = Some i → i ≠ "" →
  Py.iter (cartesia_voices s) = Ok voices →
  next_voice voices i = Ok (Some (PDict d)) →
  Py.assoc d "embedding" = Some emb →
  CreateTaskSay "How do I sound now?" true
    ∈ trace_of (on_participant_attributes_changed changed p
                  (after_speaking evs s))
  ↔ last_agent evs (is_agent_speaking s) = false
    ∧ last_user evs (is_user_speaking s) = false.
Proof.
  intros Hk Hc Hv Hi Hit Hn He.
  destruct (after_speaking_spec evs s) as (Ha & Hu & _ & Hcat).
  set (s' := after_speaking evs s) in *.
  assert (Py.iter (cartesia_voices s') = Ok voices) as Hit'
    by (by rewrite Hcat).
  rewrite (handler_lookup s' p changed i voices Hk Hc Hv Hi Hit'), Hn.
  rewrite (next_voice_found_truthy _ _ _ Hn).
  rewrite (apply_voice_with_embedding d emb s' He), Ha, Hu.
  unfold trace_of. cbn [fst].
  destruct (last_agent evs _), (last_user evs _); cbn [negb orb];
    (split; [intros H | intros [H1 H2]]);
    try discriminate; try (in_trace H); [done | right; left].
Qed.

Lemma confirmation_after_callbacks_witness :
  CreateTaskSay "How do I sound now?" true
    ∈ trace_of (on_participant_attributes_changed (voice_changed "v1")
                  (requester "v1")
                  (after_speaking [AgentStartedSpeaking; UserStartedSpeaking;
                                   UserStoppedSpeaking; AgentStoppedSpeaking]
                     sample_session)).
Proof.
  apply (confirmation_after_callbacks
           [AgentStartedSpeaking; UserStartedSpeaking;
            UserStoppedSpeaking; AgentStoppedSpeaking]
           (voice_changed "v1") (requester "v1") sample_session "v1"
           [voice_tl; voice_tl_bare]
           [("id", PStr "v1"); ("name", PStr "A");
            ("embedding", PList [PInt 1; PInt 2]); ("language", PStr "tl")]
           (PList [PInt 1; PInt 2]));
    try reflexivity; try discriminate; [by eexists | by split].
Defined.

(** * Further properties of the entrypoint *)

Lemma traverse_raise {A B : Type} (f : A → result B) (pre post : list A)
    (bad : A) (e : exn) :
  Forall (λ x, is_Ok (f x) = true) pre → f bad = Raise e →
  Py.traverse f (pre ++ bad :: post) = Raise e.
Proof.
  intros Hpre Hbad. induction Hpre as [|x r Hx _ IH]; cbn [app Py.traverse].
  - by rewrite Hbad.
  - destruct (f x); [|discriminate]. cbn [mbind result_bind]. by rewrite IH.
Qed.

Lemma traverse_values {A B : Type} (f : A → result B) (xs : list A)
    (ys : list B) :
  Forall2 (λ x y, f x = Ok y) xs ys → Py.traverse f xs = Ok ys.
Proof.
  induction 1 as [|x y xs ys H _ IH]; cbn [Py.traverse]; [reflexivity|].
  by rewrite H, IH.
Qed.

Lemma as_strs_raise (items : list pyval) (v : pyval) :
  v ∈ items → (∀ s, v ≠ PStr s) → Py.as_strs items = Raise TypeError.
Proof.
  intros Hin Hv. induction Hin as [v r | v w r _ IH].
  - destruct v; try reflexivity. by destruct (Hv s).
  - cbn [Py.as_strs]. destruct w; try reflexivity. by rewrite (IH Hv).
Qed.

(** X14.  A knowledge base that is truthy but not a mapping (a non-empty
    list or string, a non-zero number, [true]) makes the session raise
    [AttributeError] before anything is spoken: only an empty value falls
    back to the generic greeting. *)
Theorem knowledge_base_not_a_mapping (dm : string) (dl : pyval) (fs : result unit)
    (fr : pyfloat → string)
    (userdata : gmap string pyval) (published : gmap string string)
    (catalog vad kb : pyval) :
  userdata !! "cartesia_voices" = Some catalog →
  userdata !! "vad" = Some vad →
  userdata !! "knowledge_base" = Some kb →
  Py.truthy kb = true → (∀ d, kb ≠ PDict d) →
  entrypoint dm dl fs fr userdata published = ([], published, Raise AttributeError).
Proof.
  intros Hc Hv Hkb Ht Hd. rewrite entrypoint_cases, (read_userdata_present _ _ Hc).
  unfold userdata_getitem. rewrite Hv, Hkb. cbn [default from_option id].
  unfold first_greeting. rewrite Ht.
  destruct kb; try reflexivity. by destruct (Hd d).
Qed.

Lemma knowledge_base_not_a_mapping_witness :
  entrypoint "sonic-english" (PStr "en") (Ok tt) sample_repr
    (<["knowledge_base" := PList [sample_knowledge_base]]> sample_userdata) ∅
  = ([], ∅, Raise AttributeError).
Proof.
  apply (knowledge_base_not_a_mapping _ _ _ _ _ _ (PList [voice_tl_bare; voice_tl])
           (PObject "VAD") (PList [sample_knowledge_base]));
    try (vm_compute; reflexivity). discriminate.
Defined.

(** X15.  In a non-empty knowledge base, a service without ["name"] makes
    the session raise [KeyError] (or [TypeError], if the service is no
    mapping) before anything is spoken, even when an earlier name is not a
    string; and when every service has a name but one name is not a
    string, the session raises [TypeError], again before anything is
    spoken. *)
Theorem service_names_must_be_strings (dm : string) (dl : pyval) (fs : result unit)
    (fr : pyfloat → string)
    (userdata : gmap string pyval) (published : gmap string string)
    (catalog vad : pyval) (d : list (string * pyval)) (services : list pyval) :
  userdata !! "cartesia_voices" = Some catalog →
  userdata !! "vad" = Some vad →
  userdata !! "knowledge_base" = Some (PDict d) → d ≠ [] →
  Py.assoc d "services" = Some (PList services) →
  (∀ pre bad post e,
     services = pre ++ bad :: post →
     Forall (λ service, is_Ok (Py.getitem service "name") = true) pre →
     Py.getitem bad "name" = Raise e →
     entrypoint dm dl fs fr userdata published = ([], published, Raise e))
  ∧ (∀ names v,
       Forall2 (λ service n, Py.getitem service "name" = Ok n) services names →
       v ∈ names → (∀ s, v ≠ PStr s) →
       entrypoint dm dl fs fr userdata published = ([], published, Raise TypeError)).
Proof.
  intros Hc Hv Hkb Hd Hs.
  assert (∀ e,
            (names ← Py.traverse (λ service, Py.getitem service "name") services;
             Py.join ", " names) = Raise e →
            entrypoint dm dl fs fr userdata published = ([], published, Raise e))
    as Hraise.
  { intros e He.
    rewrite entrypoint_cases, (read_userdata_present _ _ Hc).
    unfold userdata_getitem. rewrite Hv, Hkb. cbn [default from_option id].
    unfold first_greeting. destruct d as [|kv d']; [done|].
    cbn [Py.truthy Py.get]. rewrite Hs.
    cbn [default from_option id mbind result_bind Py.iter].
    destruct (Py.traverse _ services) as [names|e'] eqn:Ht;
      cbn [mbind result_bind] in He |- *.
    - by rewrite He.
    - by injection He as ->. }
  split.
  - intros pre bad post e -> Hpre Hbad. apply Hraise.
    by rewrite (traverse_raise _ pre post bad e Hpre Hbad).
  - intros names v Hn Hin Hnot. apply Hraise.
    rewrite (traverse_values _ services names Hn).
    cbn [mbind result_bind]. unfold Py.join.
    by rewrite (as_strs_raise names v Hin Hnot).
Qed.

Lemma service_names_must_be_strings_witness :
  entrypoint "sonic-english" (PStr "en") (Ok tt) sample_repr
    (<["knowledge_base" :=
         PDict [("services", PList [PDict [("name", PInt 1)]; PDict []])]]>
       sample_userdata) ∅
  = ([], ∅, Raise (KeyError "name")).
Proof.
  refine (proj1 (service_names_must_be_strings "sonic-english" (PStr "en") (Ok tt) sample_repr
                   _ ∅ (PList [voice_tl_bare; voice_tl]) (PObject "VAD")
                   [("services", PList [PDict [("name", PInt 1)]; PDict []])]
                   [PDict [("name", PInt 1)]; PDict []] _ _ _ _ _)
            [PDict [("name", PInt 1)]] (PDict []) [] (KeyError "name") _ _ _);
    [vm_compute; reflexivity | vm_compute; reflexivity | vm_compute; reflexivity
     | discriminate | reflexivity | reflexivity | by repeat constructor
     | reflexivity].
Defined.

(** X16.  A non-empty knowledge base that has no ["services"] key, or an
    empty services list, still takes the services branch: the first
    greeting is the services greeting around an empty list of names, not
    the generic one. *)
Theorem knowledge_base_without_services (dm : string) (dl : pyval) (fs : result unit)
    (fr : pyfloat → string)
    (userdata : gmap string pyval) (published : gmap string string)
    (catalog vad : pyval) (d : list (string * pyval)) :
  userdata !! "cartesia_voices" = Some catalog →
  userdata !! "vad" = Some vad →
  userdata !! "knowledge_base" = Some (PDict d) → d ≠ [] →
  Py.assoc d "services" = None ∨ Py.assoc d "services" = Some (PList []) →
  ∃ rest,
    trace_of (entrypoint dm dl fs fr userdata published)
    = Say "Hi there! I'm Alex, your Aitek PH assistant. Here to help you with services like . How can I assist you today?"
        true :: rest.
Proof.
  intros Hc Hv Hkb Hd Hs.
  apply (entrypoint_first_event dm dl fs fr userdata published catalog vad); try done.
  rewrite Hkb. cbn [default from_option id]. unfold first_greeting.
  destruct d as [|kv d']; [done|]. cbn [Py.truthy Py.get].
  by destruct Hs as [-> | ->].
Qed.

Lemma knowledge_base_without_services_witness :
  ∃ rest,
    trace_of (entrypoint "sonic-english" (PStr "en") (Ok tt) sample_repr
                (<["knowledge_base" := PDict [("pricing", PList [])]]>
                   sample_userdata) ∅)
    = Say "Hi there! I'm Alex, your Aitek PH assistant. Here to help you with services like . How can I assist you today?"
        true :: rest.
Proof.
  apply (knowledge_base_without_services _ _ _ _ _ _
           (PList [voice_tl_bare; voice_tl])
           (PObject "VAD") [("pricing", PList [])]);
    try (vm_compute; reflexivity); [discriminate | by left].
Defined.

(** X17.  Provided the awaited first greeting returns: a catalog entry
    that has an ["id"] but no ["name"], after entries that have both,
    stops the session at line 176: the first greeting was spoken, the
    handlers are registered and the room is connected, but nothing is
    published, the agent is never started and the second greeting is
    never spoken. *)
Theorem catalog_entry_without_name (dm : string) (dl : pyval)
    (fr : pyfloat → string)
    (userdata : gmap string pyval) (published : gmap string string)
    (pre post : list pyval) (bad vad x : pyval) (g : string) (e : exn) :
  userdata !! "cartesia_voices" = Some (PList (pre ++ bad :: post)) →
  userdata !! "vad" = Some vad →
  first_greeting (default (PDict []) (userdata !! "knowledge_base")) = Ok g →
  Forall (λ v, is_Ok (Py.getitem v "id") = true
               ∧ is_Ok (Py.getitem v "name") = true) pre →
  Py.getitem bad "id" = Ok x →
  Py.getitem bad "name" = Raise e →
  entrypoint dm dl (Ok tt) fr userdata published
  = ([Say g true; RoomOn "participant_attributes_changed"; Connect;
      AgentOn "agent_started_speaking"; AgentOn "agent_stopped_speaking";
      AgentOn "user_started_speaking"; AgentOn "user_stopped_speaking"],
     published, Raise e).
Proof.
  intros Hc Hv Hg Hpre Hid Hname.
  rewrite entrypoint_cases, (read_userdata_present _ _ Hc).
  unfold userdata_getitem. rewrite Hv, Hg.
  assert (sorted_voices (PList (pre ++ bad :: post)) = Raise e) as ->;
    [|reflexivity].
  unfold sorted_voices. cbn [Py.iter mbind result_bind].
  rewrite (traverse_raise reduce_voice pre post bad e); [reflexivity| |].
  - eapply Forall_impl; [exact Hpre|]. intros v [Hi Hn]. unfold reduce_voice.
    destruct (Py.getitem v "id"); [|discriminate].
    by destruct (Py.getitem v "name").
  - unfold reduce_voice. by rewrite Hid, Hname.
Qed.

Lemma catalog_entry_without_name_witness :
  entrypoint "sonic-english" (PStr "en") (Ok tt) sample_repr
    (<["cartesia_voices" :=
         PList [voice_tl; PDict [("id", PStr "v4")]; voice_en]]>
       sample_userdata) ∅
  = ([Say "Hi there, how are you doing today?" true;
      RoomOn "participant_attributes_changed"; Connect;
      AgentOn "agent_started_speaking"; AgentOn "agent_stopped_speaking";
      AgentOn "user_started_speaking"; AgentOn "user_stopped_speaking"],
     ∅, Raise (KeyError "name")).
Proof.
  refine (catalog_entry_without_name "sonic-english" (PStr "en") sample_repr _ ∅
            [voice_tl] [voice_en] (PDict [("id", PStr "v4")]) (PObject "VAD")
            (PStr "v4") "Hi there, how are you doing today?" (KeyError "name")
            _ _ _ _ _ _);
    [vm_compute; reflexivity | vm_compute; reflexivity | vm_compute; reflexivity
     | by repeat constructor | reflexivity | reflexivity].
Defined.

(** X18.  The session writes no attribute of the local participant but
    ["voices"], and when it raises it has written none at all. *)
Theorem entrypoint_writes_only_voices (dm : string) (dl : pyval) (fs : result unit)
    (fr : pyfloat → string)
    (userdata : gmap string pyval) (published : gmap string string) :
  (∀ k, k ≠ "voices" →
        state_of (entrypoint dm dl fs fr userdata published) !! k = published !! k)
  ∧ (∀ e, value_of (entrypoint dm dl fs fr userdata published) = Raise e →
          state_of (entrypoint dm dl fs fr userdata published) = published).
Proof.
  rewrite entrypoint_cases.
  destruct (read_userdata userdata) as [[kb catalog]|e0]; [|by split].
  destruct (userdata_getitem userdata "vad") as [vad|e0]; [|by split].
  destruct (first_greeting kb) as [g|e0]; [|by split].
  destruct fs as [[]|e0]; [|by split].
  destruct (sorted_voices catalog) as [voices|e0]; [|by split].
  destruct (Json.dumps fr (PList voices)) as [payload|e0]; [|by split].
  unfold state_of, value_of. cbn [fst snd]. split; [|discriminate].
  intros k Hk. by rewrite lookup_insert_ne.
Qed.

(** X19.  Provided the awaited first greeting returns: with the two
    required keys, a greeting that can be computed and a catalog whose
    entries all have a string ["id"] and ["name"], the session runs to
    its end: it speaks exactly twice, first the greeting and last the
    generic one; it registers the attribute handler before connecting
    and the four speaking callbacks after; it publishes once, before the
    agent starts; and it hands the callbacks the catalog, the fixed
    voice and two clear flags. *)
Theorem well_formed_session_completes (dm : string) (dl : pyval)
    (fr : pyfloat → string)
    (userdata : gmap string pyval) (published : gmap string string)
    (entries : list pyval) (vad : pyval) (g : string) :
  userdata !! "cartesia_voices" = Some (PList entries) →
  userdata !! "vad" = Some vad →
  first_greeting (default (PDict []) (userdata !! "knowledge_base")) = Ok g →
  Forall (λ v, ∃ i n, Py.getitem v "id" = Ok (PStr i)
                      ∧ Py.getitem v "name" = Ok (PStr n)) entries →
  ∃ payload,
    trace_of (entrypoint dm dl (Ok tt) fr userdata published)
    = [Say g true; RoomOn "participant_attributes_changed"; Connect;
       AgentOn "agent_started_speaking"; AgentOn "agent_stopped_speaking";
       AgentOn "user_started_speaking"; AgentOn "user_stopped_speaking";
       SetAttributes [("voices", payload)]; AgentStart;
       Say "Hi there, how are you doing today?" true]
    ∧ state_of (entrypoint dm dl (Ok tt) fr userdata published)
      = <["voices" := payload]> published
    ∧ value_of (entrypoint dm dl (Ok tt) fr userdata published)
      = Ok {| cartesia_voices := PList entries;
              tts_opts := {| voice := PStr "248be419-c632-4f23-adf1-5324ed7dbf1d";
                             model := dm; language := dl |};
              is_user_speaking := false;
              is_agent_speaking := false |}.
Proof.
  intros Hc Hv Hg Hwf.
  destruct (entrypoint_completes dm dl fr userdata published entries vad g
              Hc Hv Hg Hwf) as [payload ->].
  by exists payload.
Qed.

Lemma well_formed_session_completes_witness :
  ∃ payload,
    state_of (entrypoint "sonic-english" (PStr "en") (Ok tt) sample_repr sample_userdata ∅)
    = <["voices" := payload]> ∅.
Proof.
  destruct (well_formed_session_completes "sonic-english" (PStr "en") sample_repr
              sample_userdata ∅ [voice_tl_bare; voice_tl] (PObject "VAD")
              "Hi there, how are you doing today?")
    as (payload & _ & Hs & _).
  - vm_compute; reflexivity.
  - vm_compute; reflexivity.
  - vm_compute; reflexivity.
  - repeat constructor; by eexists _, _.
  - exists payload. exact Hs.
Defined.

Lemma sort_keyed_of_sorted {A : Type} (l : list (pyval * A)) :
  Sorted key_le l → Sort.sort_keyed l = Ok l.
Proof.
  induction 1 as [|x r _ IH Hhd]; cbn [Sort.sort_keyed]; [reflexivity|].
  rewrite IH. cbn [mbind result_bind].
  destruct Hhd as [|y r' Hxy]; cbn [Sort.insert]; [reflexivity|].
  unfold key_le in Hxy. by rewrite Hxy.
Qed.

Lemma keyed_of_sorted {A : Type} (key : A → result pyval) (l : list A) :
  Forall (λ a, is_Ok (key a) = true) l →
  Sorted (by_key key) l →
  ∃ keyed,
    Py.traverse (λ x, k ← key x; Ok (k, x)) l = Ok keyed
    ∧ map snd keyed = l
    ∧ Sorted key_le keyed
    ∧ ∀ a ka, key a = Ok ka → HdRel (by_key key) a l →
              HdRel key_le (ka, a) keyed.
Proof.
  intros Hk Hs. induction Hs as [|x r _ IH Hhd]; cbn [Py.traverse].
  - exists []. repeat split; constructor.
  - inversion Hk as [|? ? Hx Hr]; subst.
    destruct (IH Hr) as (kr & -> & Hm & Hsr & Hhds).
    destruct (key x) as [kx|] eqn:Hkx; [|discriminate].
    cbn [mbind result_bind]. exists ((kx, x) :: kr). repeat split.
    + cbn [map snd]. by rewrite Hm.
    + constructor; [done|]. by apply Hhds.
    + intros a ka Hka Ha.
      inversion Ha as [|? ? (ka' & kx' & Hka' & Hkx' & Hlt)]; subst.
      constructor. unfold key_le. cbn [fst]. congruence.
Qed.

(** Sorting a list that has no inversion returns it as it is. *)
Lemma sort_of_sorted {A : Type} (key : A → result pyval) (l : list A) :
  Forall (λ a, is_Ok (key a) = true) l →
  Sorted (by_key key) l → Sort.sort key l = Ok l.
Proof.
  intros Hk Hs. unfold Sort.sort.
  destruct (keyed_of_sorted key l Hk Hs) as (keyed & -> & Hm & Hsorted & _).
  cbn [mbind result_bind]. rewrite (sort_keyed_of_sorted keyed Hsorted).
  cbn [mbind result_bind]. by rewrite Hm.
Qed.

Lemma reduced_name (v r : pyval) :
  reduced_from v r → name_of r = name_of v.
Proof. intros (i & n & _ & Hn & ->). unfold name_of. by rewrite Hn. Qed.

(** X20.  A catalog that already comes ordered by name is published in
    catalog order: when every entry has an ["id"] and a ["name"] and no
    entry has a smaller name than the entry before it, lines 176-177
    yield the [{id, name}] pairs of the entries, one for one, in the same
    order. *)
Theorem sorted_catalog_keeps_order (entries : list pyval) :
  Forall (λ v, is_Ok (Py.getitem v "id") = true
               ∧ is_Ok (Py.getitem v "name") = true) entries →
  Sorted (by_key name_of) entries →
  ∃ reduced,
    Forall2 reduced_from entries reduced
    ∧ sorted_voices (PList entries) = Ok reduced.
Proof.
  intros Hwf Hs.
  assert (∃ reduced, Py.traverse reduce_voice entries = Ok reduced)
    as [reduced Hr].
  { induction Hwf as [|v r [Hi Hn] _ IH]; cbn [Py.traverse]; [by eexists|].
    inversion Hs as [|? ? Hs' _]; subst. destruct (IH Hs') as [rr ->].
    unfold reduce_voice.
    destruct (Py.getitem v "id"); [|discriminate].
    destruct (Py.getitem v "name"); [|discriminate].
    by eexists. }
  pose proof (traverse_reduce entries reduced Hr) as Hred.
  exists reduced. split; [done|].
  unfold sorted_voices. cbn [Py.iter mbind result_bind]. rewrite Hr.
  cbn [mbind result_bind]. apply sort_of_sorted.
  - clear Hr Hs Hwf. induction Hred as [|v r vs rs (i & n & _ & _ & ->) _ IH];
      constructor; done.
  - clear Hr Hwf. revert Hs.
    induction Hred as [|v r vs rs Hv Hrest IH]; intros Hs; [constructor|].
    inversion Hs as [|? ? Hs' Hhd]; subst. constructor; [by apply IH|].
    destruct Hrest as [|v' r' vs' rs' Hv' _]; constructor.
    inversion Hhd as [|? ? (ka & kb & Ha & Hb & Hlt)]; subst.
    exists ka, kb. fold (name_of r) (name_of r').
    by rewrite (reduced_name v r Hv), (reduced_name v' r' Hv').
Qed.

Lemma sorted_catalog_keeps_order_witness :
  ∃ reduced,
    Forall2 reduced_from [voice_tl; voice_tl_bare; voice_en] reduced
    ∧ sorted_voices (PList [voice_tl; voice_tl_bare; voice_en]) = Ok reduced.
Proof.
  apply sorted_catalog_keeps_order.
  - by repeat constructor.
  - repeat constructor; by eexists _, _.
Defined.

(** X21.  Provided the awaited first greeting returns: with an empty
    catalog the session still completes and publishes the empty list,
    ["[]"]; on the session it returns, every request for a non-empty
    identifier ends in the warning that the voice was not found, and
    leaves the session as it is. *)
Theorem empty_catalog_session (dm : string) (dl : pyval)
    (fr : pyfloat → string)
    (userdata : gmap string pyval) (published : gmap string string)
    (vad : pyval) (g : string) :
  userdata !! "cartesia_voices" = Some (PList []) →
  userdata !! "vad" = Some vad →
  first_greeting (default (PDict []) (userdata !! "knowledge_base")) = Ok g →
  ∃ s,
    value_of (entrypoint dm dl (Ok tt) fr userdata published) = Ok s
    ∧ state_of (entrypoint dm dl (Ok tt) fr userdata published) !! "voices" = Some "[]"
    ∧ ∀ changed p i,
        kind p = PARTICIPANT_KIND_STANDARD →
        is_Some (changed !! "voice") →
        attributes p !! "voice" = Some i → i ≠ "" →
        on_participant_attributes_changed changed p s
        = ([LogInfo ("participant " +:+ identity p
                     +:+ " requested voice change: " +:+ i);
            LogWarning ("Voice " +:+ i +:+ " not found")],
           s, Ok tt).
Proof.
  intros Hc Hv Hg. rewrite entrypoint_cases, (read_userdata_present _ _ Hc).
  unfold userdata_getitem. rewrite Hv, Hg.
  change (sorted_voices (PList [])) with (@Ok (list pyval) []).
  change (Json.dumps fr (PList [])) with (@Ok string "[]").
  unfold value_of, state_of. cbn [fst snd]. eexists. split; [reflexivity|].
  split; [apply lookup_insert_eq|].
  intros changed p i Hk Hch Ha Hi.
  match goal with
  | |- on_participant_attributes_changed _ _ ?s = _ =>
      rewrite (handler_lookup s p changed i [] Hk Hch Ha Hi eq_refl)
  end.
  unfold request_info. by rewrite Ha.
Qed.

Lemma empty_catalog_session_witness :
  state_of (entrypoint "sonic-english" (PStr "en") (Ok tt) sample_repr
              (<["cartesia_voices" := PList []]> sample_userdata) ∅)
  !! "voices" = Some "[]".
Proof.
  destruct (empty_catalog_session "sonic-english" (PStr "en") sample_repr
              (<["cartesia_voices" := PList []]> sample_userdata) ∅
              (PObject "VAD") "Hi there, how are you doing today?")
    as (s & _ & H & _).
  - vm_compute; reflexivity.
  - vm_compute; reflexivity.
  - vm_compute; reflexivity.
  - exact H.
Defined.

Lemma traverse_ext {A B : Type} (f g : A → result B) (xs ys : list A) :
  Forall2 (λ x y, f x = g y) xs ys → Py.traverse f xs = Py.traverse g ys.
Proof.
  induction 1 as [|x y xs ys H _ IH]; cbn [Py.traverse]; [reflexivity|].
  by rewrite H, IH.
Qed.

(** X22.  What the session publishes, says and registers depends on the
    catalog only through the ["id"] and the ["name"] of its entries: two
    catalogs of entries that agree on those two fields, whatever their
    embeddings, languages or other fields, give the same events and the
    same published attributes. *)
Theorem published_ignores_other_fields (dm : string) (dl : pyval) (fs : result unit)
    (fr : pyfloat → string)
    (userdata : gmap string pyval) (published : gmap string string)
    (entries entries' : list pyval) :
  Forall2 (λ v w, Py.getitem v "id" = Py.getitem w "id"
                  ∧ Py.getitem v "name" = Py.getitem w "name")
          entries entries' →
  let o := entrypoint dm dl fs fr
             (<["cartesia_voices" := PList entries]> userdata) published in
  let o' := entrypoint dm dl fs fr
              (<["cartesia_voices" := PList entries']> userdata) published in
  trace_of o = trace_of o' ∧ state_of o = state_of o'
  ∧ is_Ok (value_of o) = is_Ok (value_of o').
Proof.
  intros Hsame. cbv zeta. rewrite !entrypoint_cases.
  unfold read_userdata, userdata_getitem.
  rewrite !lookup_insert_eq, !lookup_insert_ne by done.
  cbn [mbind result_bind].
  destruct (userdata !! "vad") as [vad|]; [|done].
  destruct (first_greeting _) as [g|e]; [|done].
  destruct fs as [[]|e]; [|done].
  assert (sorted_voices (PList entries) = sorted_voices (PList entries')) as ->.
  { unfold sorted_voices. cbn [Py.iter mbind result_bind].
    rewrite (traverse_ext reduce_voice reduce_voice entries entries');
      [reflexivity|].
    eapply Forall2_impl; [exact Hsame|]. intros v w [Hi Hn].
    unfold reduce_voice. by rewrite Hi, Hn. }
  destruct (sorted_voices (PList entries')) as [voices|e]; [|done].
  by destruct (Json.dumps fr (PList voices)).
Qed.

Lemma published_ignores_other_fields_witness :
  state_of (entrypoint "sonic-english" (PStr "en") (Ok tt) sample_repr
              (<["cartesia_voices" := PList [voice_tl]]> sample_userdata) ∅)
  = state_of (entrypoint "sonic-english" (PStr "en") (Ok tt) sample_repr
                (<["cartesia_voices" :=
                     PList [PDict [("name", PStr "A"); ("id", PStr "v1")]]]>
                   sample_userdata) ∅).
Proof.
  destruct (published_ignores_other_fields "sonic-english" (PStr "en") (Ok tt) sample_repr
              sample_userdata ∅ [voice_tl]
              [PDict [("name", PStr "A"); ("id", PStr "v1")]])
    as (_ & H & _).
  - by repeat constructor.
  - exact H.
Defined.

(** X29.  When the awaited first greeting does not return but ends with
    an exception, [CancelledError] if the task is cancelled while it
    waits, the session ends there: the greeting was requested and
    nothing else has happened.  The attribute handler and the speaking
    callbacks are not registered, the room is not connected, nothing is
    published and the agent is not started. *)
Theorem first_greeting_that_does_not_return (dm : string) (dl : pyval)
    (fr : pyfloat → string)
    (userdata : gmap string pyval) (published : gmap string string)
    (catalog vad : pyval) (g : string) (e : exn) :
  userdata !! "cartesia_voices" = Some catalog →
  userdata !! "vad" = Some vad →
  first_greeting (default (PDict []) (userdata !! "knowledge_base")) = Ok g →
  entrypoint dm dl (Raise e) fr userdata published
  = ([Say g true], published, Raise e).
Proof.
  intros Hc Hv Hg. rewrite entrypoint_cases, (read_userdata_present _ _ Hc).
  unfold userdata_getitem. by rewrite Hv, Hg.
Qed.

Lemma first_greeting_that_does_not_return_witness :
  entrypoint "sonic-english" (PStr "en") (Raise CancelledError) sample_repr
    sample_userdata ∅
  = ([Say "Hi there, how are you doing today?" true], ∅, Raise CancelledError).
Proof.
  apply (first_greeting_that_does_not_return _ _ _ _ _
           (PList [voice_tl_bare; voice_tl]) (PObject "VAD"));
    vm_compute; reflexivity.
Defined.

Lemma reduce_all (fr : pyfloat → string) (entries : list pyval) :
  Forall (λ v, ∃ i n, Py.getitem v "id" = Ok i ∧ Py.getitem v "name" = Ok n
                      ∧ is_Ok (Json.dumps fr i) = true
                      ∧ is_Ok (Json.dumps fr n) = true) entries →
  ∃ reduced,
    Py.traverse reduce_voice entries = Ok reduced
    ∧ Forall (λ r, ∃ v i n,
                v ∈ entries ∧ Py.getitem v "name" = Ok n
                ∧ r = PDict [("id", i); ("name", n)]
                ∧ is_Ok (Json.dumps fr i) = true
                ∧ is_Ok (Json.dumps fr n) = true) reduced.
Proof.
  induction 1 as [|v r (i & n & Hi & Hn & Hdi & Hdn) _ (rr & IH & Hrr)];
    cbn [Py.traverse]; [by eexists|].
  assert (reduce_voice v = Ok (PDict [("id", i); ("name", n)])) as ->
    by (unfold reduce_voice; by rewrite Hi, Hn).
  rewrite IH. cbn [mbind result_bind]. eexists. split; [reflexivity|].
  constructor.
  - exists v, i, n. repeat split; try done. left.
  - eapply Forall_impl; [exact Hrr|].
    intros x (w & j & m & Hw & Hm & -> & Hdj & Hdm).
    exists w, j, m. repeat split; try done. by right.
Qed.

(** X30.  Provided the awaited first greeting returns: with the two
    required keys and a greeting that can be computed, the session
    publishes the voice list and completes for every catalog list whose
    entries all have an ["id"] and a ["name"] that [json.dumps] can
    encode, and whose names [<] compares each with each: names that are
    all strings, or all numbers, or lists that compare. *)
Theorem comparable_names_are_published (dm : string) (dl : pyval)
    (fr : pyfloat → string)
    (userdata : gmap string pyval) (published : gmap string string)
    (entries : list pyval) (vad : pyval) (g : string) :
  userdata !! "cartesia_voices" = Some (PList entries) →
  userdata !! "vad" = Some vad →
  first_greeting (default (PDict []) (userdata !! "knowledge_base")) = Ok g →
  Forall (λ v, ∃ i n, Py.getitem v "id" = Ok i ∧ Py.getitem v "name" = Ok n
                      ∧ is_Ok (Json.dumps fr i) = true
                      ∧ is_Ok (Json.dumps fr n) = true) entries →
  (∀ v w n m, v ∈ entries → w ∈ entries →
              Py.getitem v "name" = Ok n → Py.getitem w "name" = Ok m →
              is_Ok (Py.lt n m) = true) →
  ∃ payload,
    SetAttributes [("voices", payload)]
    ∈ trace_of (entrypoint dm dl (Ok tt) fr userdata published)
    ∧ state_of (entrypoint dm dl (Ok tt) fr userdata published) !! "voices"
      = Some payload
    ∧ is_Ok (value_of (entrypoint dm dl (Ok tt) fr userdata published)) = true.
Proof.
  intros Hc Hv Hg Hwf Hlt.
  rewrite entrypoint_cases, (read_userdata_present _ _ Hc).
  unfold userdata_getitem. rewrite Hv, Hg.
  destruct (reduce_all fr entries Hwf) as (reduced & Hr & Hred).
  assert (∃ sorted, sorted_voices (PList entries) = Ok sorted
                    ∧ sorted ≡ₚ reduced) as (sorted & -> & Hp).
  { unfold sorted_voices. cbn [Py.iter mbind result_bind]. rewrite Hr.
    cbn [mbind result_bind].
    destruct (sort_defined name_of reduced) as [sorted Hs].
    - eapply Forall_impl; [exact Hred|].
      by intros r (v & i & n & _ & _ & -> & _).
    - rewrite Forall_forall in Hred.
      intros a b ka kb (v & i & n & Hin & Hn & -> & _)%Hred
             (w & j & m & Hin' & Hm & -> & _)%Hred [= <-] [= <-].
      by apply (Hlt v w).
    - exists sorted. split; [done|]. by apply (sort_spec name_of). }
  destruct (dumps_list fr sorted) as [payload ->].
  { rewrite Hp. eapply Forall_impl; [exact Hred|].
    intros r (v & i & n & _ & _ & -> & Hi & Hn). cbn [Json.dumps].
    destruct (Json.dumps fr i); [|discriminate].
    destruct (Json.dumps fr n); [|discriminate]. by eexists. }
  exists payload. unfold trace_of, state_of, value_of. cbn [fst snd].
  split; [|split; [apply lookup_insert_eq | reflexivity]].
  unfold setup_events. do 7 right. left.
Qed.

Lemma comparable_names_are_published_witness :
  state_of (entrypoint "sonic-english" (PStr "en") (Ok tt) sample_repr
              (<["cartesia_voices" := PList catalog_of_lists]> sample_userdata) ∅)
  !! "voices"
  = Some (String.concat (String "034"%char "")
            ["[{"; "id"; ": "; "c"; ", "; "name"; ": []}, {"; "id"; ": "; "d";
             ", "; "name"; ": [1]}, {"; "id"; ": "; "b"; ", "; "name";
             ": [1, 5]}, {"; "id"; ": "; "a"; ", "; "name"; ": [2]}]"]).
Proof.
  destruct (comparable_names_are_published "sonic-english" (PStr "en")
              sample_repr
              (<["cartesia_voices" := PList catalog_of_lists]> sample_userdata)
              ∅ catalog_of_lists (PObject "VAD")
              "Hi there, how are you doing today?")
    as (payload & _ & Hs & _).
  - vm_compute; reflexivity.
  - vm_compute; reflexivity.
  - vm_compute; reflexivity.
  - repeat constructor; eexists _, _; repeat split; reflexivity.
  - intros v w n m Hv Hw. unfold catalog_of_lists in Hv, Hw.
    repeat (apply elem_of_cons in Hv as [->|Hv]);
      try (apply elem_of_nil in Hv; destruct Hv);
      repeat (apply elem_of_cons in Hw as [->|Hw]);
      try (apply elem_of_nil in Hw; destruct Hw);
      intros [= <-] [= <-]; reflexivity.
  - rewrite Hs. vm_compute in Hs. injection Hs as <-. reflexivity.
Defined.

(** * Further properties of the startup preparer *)

Section PrewarmMore.

Variable vad_load : result pyval.
Variable getenv : string → option string.
Variable requests_get : string → list (string * string) → result Response.

(** The catalog step writes no key but its own. *)
Lemma fetch_voices_frame (userdata : gmap string pyval) (k : string) :
  k ≠ "cartesia_voices" →
  state_of (fetch_voices getenv requests_get userdata) !! k = userdata !! k.
Proof.
  intros Hk. rewrite fetch_voices_cases.
  destruct (requests_get _ _) as [response|e]; [|reflexivity].
  destruct (status_code response =? 200); [|reflexivity].
  destruct (json response) as [body|e]; [|reflexivity].
  unfold state_of. cbn [fst snd]. by rewrite lookup_insert_ne.
Qed.

(** A knowledge-base fetch that raises anything but a
    [RequestException] lets the exception through. *)
Lemma load_knowledge_base_propagates (userdata : gmap string pyval) (e : exn) :
  knowledge_base_raises requests_get e →
  (∀ msg, e ≠ RequestException msg) →
  load_knowledge_base requests_get userdata = ([], userdata, Raise e).
Proof.
  intros Hr He.
  unfold load_knowledge_base, try_except_RequestException, mbind, M_bind, lift.
  destruct Hr as [Hg | (response & Hg & [Hr | [Hr Hj]])];
    rewrite Hg, ?Hr, ?Hj; cbn; destruct e; try reflexivity; by destruct (He msg).
Qed.

(** The state prewarm leaves, when the VAD model loads. *)
Lemma prewarm_state (userdata : gmap string pyval) (vad : pyval) :
  vad_load = Ok vad →
  state_of (prewarm vad_load getenv requests_get userdata)
  = match fetch_voices getenv requests_get (<["vad" := vad]> userdata) with
    | (_, userdata', Ok _) =>
        state_of (load_knowledge_base requests_get userdata')
    | (_, userdata', Raise _) => userdata'
    end.
Proof.
  intros Hvad. rewrite prewarm_cases, Hvad.
  destruct (fetch_voices _ _ _) as [[t u] [[]|e]]; [|reflexivity].
  by destruct (load_knowledge_base _ _) as [[t' u'] r].
Qed.

End PrewarmMore.

(** When loading the VAD model raises, prewarm raises the same exception
    at once: nothing is stored and nothing is logged. *)
Lemma vad_failure_aborts_prewarm
    (getenv : string → option string)
    (requests_get : string → list (string * string) → result Response)
    (userdata : gmap string pyval) (e : exn) :
  prewarm (Raise e) getenv requests_get userdata = ([], userdata, Raise e).
Proof. by rewrite prewarm_cases. Qed.

(** X23.  The catalog fetch is not guarded: an exception of the request
    itself, a [RequestException] included, or of decoding a 200 body,
    ends prewarm with that exception.  The VAD model is stored, no
    warning is logged and the knowledge base is never fetched. *)
Theorem catalog_fetch_failure_aborts_prewarm
    (vad_load : result pyval) (getenv : string → option string)
    (requests_get : string → list (string * string) → result Response)
    (userdata : gmap string pyval) (vad : pyval) (e : exn) :
  vad_load = Ok vad →
  requests_get "https://api.cartesia.ai/voices" (headers getenv) = Raise e
  ∨ (∃ response,
       requests_get "https://api.cartesia.ai/voices" (headers getenv)
       = Ok response
       ∧ status_code response = 200 ∧ json response = Raise e) →
  prewarm vad_load getenv requests_get userdata
  = ([], <["vad" := vad]> userdata, Raise e).
Proof.
  intros Hvad Hfail. rewrite prewarm_cases, Hvad, fetch_voices_cases.
  destruct Hfail as [-> | (response & -> & Hs & Hj)]; [reflexivity|].
  by rewrite Hs, Hj.
Qed.

Lemma catalog_fetch_failure_aborts_prewarm_witness :
  prewarm (Ok (PObject "VAD")) (λ _, None)
    (λ _ _, Raise (RequestException "Connection refused")) ∅
  = ([], <["vad" := PObject "VAD"]> ∅,
     Raise (RequestException "Connection refused")).
Proof.
  apply catalog_fetch_failure_aborts_prewarm; [reflexivity | by left].
Defined.

(** X24.  In the knowledge-base step only a [RequestException] is
    caught: any other exception of the request, of [raise_for_status] or
    of decoding ends prewarm with that exception, after the catalog step
    has completed; the key ["knowledge_base"] is left as it was and
    neither the warning nor the success record is logged. *)
Theorem knowledge_base_other_exception_propagates
    (vad_load : result pyval) (getenv : string → option string)
    (requests_get : string → list (string * string) → result Response)
    (userdata : gmap string pyval) (vad : pyval) (response : Response)
    (e : exn) :
  vad_load = Ok vad →
  requests_get "https://api.cartesia.ai/voices" (headers getenv) = Ok response →
  (status_code response = 200 → is_Ok (json response) = true) →
  knowledge_base_raises requests_get e →
  (∀ msg, e ≠ RequestException msg) →
  let o := prewarm vad_load getenv requests_get userdata in
  value_of o = Raise e
  ∧ state_of o !! "knowledge_base" = userdata !! "knowledge_base"
  ∧ (∀ msg, LogWarning ("Failed to load knowledge base: " +:+ msg) ∉ trace_of o)
  ∧ LogInfo "Knowledge base loaded successfully." ∉ trace_of o.
Proof.
  intros Hvad Hget Hcompletes Hr He. cbv zeta.
  rewrite prewarm_cases, Hvad, fetch_voices_cases, Hget.
  destruct (status_code response =? 200) eqn:Hs.
  - apply Z.eqb_eq in Hs. specialize (Hcompletes Hs).
    destruct (json response) as [body|]; [|discriminate].
    rewrite (load_knowledge_base_propagates requests_get _ e Hr He).
    unfold value_of, state_of, trace_of. cbn [fst snd app].
    rewrite !lookup_insert_ne by done.
    repeat split; intros; apply not_elem_of_nil.
  - rewrite (load_knowledge_base_propagates requests_get _ e Hr He).
    unfold value_of, state_of, trace_of, voices_warning. cbn [fst snd app].
    rewrite !lookup_insert_ne by done.
    repeat split; intros; not_in_singleton.
Qed.

Lemma knowledge_base_other_exception_propagates_witness :
  value_of (prewarm (Ok (PObject "VAD")) (λ _, None)
              (λ url _, if String.eqb url "https://api.cartesia.ai/voices"
                        then Ok (sample_response 200 (Ok (PList [])))
                        else Ok (sample_response 200
                                   (Raise (OtherException "Expecting value"))))
              ∅)
  = Raise (OtherException "Expecting value").
Proof.
  refine (proj1 (knowledge_base_other_exception_propagates
                   (Ok (PObject "VAD")) (λ _, None) _ ∅ (PObject "VAD")
                   (sample_response 200 (Ok (PList [])))
                   (OtherException "Expecting value") _ _ _ _ _));
    [reflexivity | reflexivity | reflexivity | | discriminate].
  right. eexists. split; [reflexivity|]. right. by split.
Defined.

(** X25.  Whenever the VAD model loads, it is in the user data that
    prewarm leaves, under ["vad"], whatever the two fetches do and
    whether or not prewarm then raises. *)
Theorem vad_always_stored
    (vad_load : result pyval) (getenv : string → option string)
    (requests_get : string → list (string * string) → result Response)
    (userdata : gmap string pyval) (vad : pyval) :
  vad_load = Ok vad →
  state_of (prewarm vad_load getenv requests_get userdata) !! "vad" = Some vad.
Proof.
  intros Hvad. rewrite (prewarm_state _ _ _ _ vad Hvad).
  pose proof (fetch_voices_frame getenv requests_get
                (<["vad" := vad]> userdata) "vad") as Hf.
  destruct (fetch_voices _ _ _) as [[t u] [[]|e]];
    unfold state_of in Hf; cbn [fst snd] in Hf.
  - rewrite load_knowledge_base_frame by done.
    rewrite Hf by done. apply lookup_insert_eq.
  - rewrite Hf by done. apply lookup_insert_eq.
Qed.

Lemma vad_always_stored_witness :
  state_of (prewarm (Ok (PObject "VAD")) (λ _, None) network_down ∅) !! "vad"
  = Some (PObject "VAD").
Proof. apply vad_always_stored. reflexivity. Defined.

(** X26.  Prewarm writes the keys ["vad"], ["cartesia_voices"] and
    ["knowledge_base"] and no other: every other key of the user data is
    as it was, on every path. *)
Theorem prewarm_writes_only_its_keys
    (vad_load : result pyval) (getenv : string → option string)
    (requests_get : string → list (string * string) → result Response)
    (userdata : gmap string pyval) (k : string) :
  k ≠ "vad" → k ≠ "cartesia_voices" → k ≠ "knowledge_base" →
  state_of (prewarm vad_load getenv requests_get userdata) !! k = userdata !! k.
Proof.
  intros H1 H2 H3. destruct vad_load as [vad|e] eqn:Hvad;
    [|by rewrite prewarm_cases].
  rewrite (prewarm_state _ _ _ _ vad eq_refl).
  pose proof (fetch_voices_frame getenv requests_get
                (<["vad" := vad]> userdata) k H2) as Hf.
  destruct (fetch_voices _ _ _) as [[t u] [[]|e]];
    unfold state_of in Hf; cbn [fst snd] in Hf.
  - rewrite load_knowledge_base_frame by done.
    rewrite Hf. by apply lookup_insert_ne.
  - rewrite Hf. by apply lookup_insert_ne.
Qed.

Lemma prewarm_writes_only_its_keys_witness :
  state_of (prewarm (Ok (PObject "VAD")) (λ _, None) network_up
              (<["model" := PStr "m"]> ∅)) !! "model"
  = Some (PStr "m").
Proof.
  rewrite prewarm_writes_only_its_keys; [reflexivity | done..].
Defined.

(** * Prewarm, then a session *)

(** X27.  The catalog key is set by nothing but a 200 response with a
    decodable body.  Starting from user data without the key, if the
    catalog request yields no such response (it raises, answers another
    status, or its body does not decode; or the VAD load already failed),
    then every session started on the user data that prewarm leaves
    raises [KeyError] for ["cartesia_voices"] before doing anything. *)
Theorem no_catalog_no_session
    (vad_load : result pyval) (getenv : string → option string)
    (requests_get : string → list (string * string) → result Response)
    (userdata : gmap string pyval) (dm : string) (dl : pyval) (fs : result unit)
    (fr : pyfloat → string)
    (published : gmap string string) :
  userdata !! "cartesia_voices" = None →
  (∀ response,
     requests_get "https://api.cartesia.ai/voices" (headers getenv)
     = Ok response →
     status_code response = 200 → is_Ok (json response) = false) →
  entrypoint dm dl fs fr
    (state_of (prewarm vad_load getenv requests_get userdata)) published
  = ([], published, Raise (KeyError "cartesia_voices")).
Proof.
  intros Hnone Hno.
  assert (state_of (prewarm vad_load getenv requests_get userdata)
          !! "cartesia_voices" = None) as Hstate.
  { destruct vad_load as [vad|e] eqn:Hvad; [|by rewrite prewarm_cases].
    rewrite (prewarm_state _ _ _ _ vad eq_refl), fetch_voices_cases.
    destruct (requests_get _ _) as [response|e] eqn:Hget;
      [|by rewrite lookup_insert_ne].
    destruct (status_code response =? 200) eqn:Hs.
    - apply Z.eqb_eq in Hs. specialize (Hno response eq_refl Hs).
      destruct (json response); [discriminate|]. by rewrite lookup_insert_ne.
    - rewrite load_knowledge_base_frame by done. by rewrite lookup_insert_ne. }
  rewrite entrypoint_cases. unfold read_userdata, userdata_getitem.
  by rewrite Hstate.
Qed.

Lemma no_catalog_no_session_witness :
  entrypoint "sonic-english" (PStr "en") (Ok tt) sample_repr
    (state_of (prewarm (Ok (PObject "VAD")) (λ _, None) network_down ∅)) ∅
  = ([], ∅, Raise (KeyError "cartesia_voices")).
Proof.
  apply no_catalog_no_session; [reflexivity|].
  intros response [= <-]. discriminate.
Defined.

(** X28.  When the catalog fetch succeeds with well-formed entries and
    the knowledge-base fetch fails with a [RequestException], prewarm
    returns normally and a session on the user data it leaves, provided
    its awaited first greeting returns, completes, speaking the generic
    greeting both times. *)
Theorem failed_knowledge_base_generic_session
    (vad_load : result pyval) (getenv : string → option string)
    (requests_get : string → list (string * string) → result Response)
    (userdata : gmap string pyval) (vad : pyval) (response : Response)
    (entries : list pyval) (msg : string) (dm : string) (dl : pyval)
    (fr : pyfloat → string)
    (published : gmap string string) :
  userdata !! "knowledge_base" = None →
  vad_load = Ok vad →
  requests_get "https://api.cartesia.ai/voices" (headers getenv) = Ok response →
  status_code response = 200 →
  json response = Ok (PList entries) →
  Forall (λ v, ∃ i n, Py.getitem v "id" = Ok (PStr i)
                      ∧ Py.getitem v "name" = Ok (PStr n)) entries →
  knowledge_base_request_fails requests_get msg →
  let pre := prewarm vad_load getenv requests_get userdata in
  let o := entrypoint dm dl (Ok tt) fr (state_of pre) published in
  value_of pre = Ok tt
  ∧ is_Ok (value_of o) = true
  ∧ ∃ payload,
      trace_of o
      = [Say "Hi there, how are you doing today?" true;
         RoomOn "participant_attributes_changed"; Connect;
         AgentOn "agent_started_speaking"; AgentOn "agent_stopped_speaking";
         AgentOn "user_started_speaking"; AgentOn "user_stopped_speaking";
         SetAttributes [("voices", payload)]; AgentStart;
         Say "Hi there, how are you doing today?" true].
Proof.
  intros Hkb Hvad Hget Hs Hj Hwf Hfail. cbv zeta.
  rewrite prewarm_cases, Hvad, fetch_voices_cases, Hget, Hs, Hj.
  cbn [Z.eqb Pos.eqb].
  rewrite (load_knowledge_base_fails requests_get _ msg Hfail).
  unfold value_of at 1, state_of. cbn [fst snd]. split; [reflexivity|].
  destruct (entrypoint_completes dm dl fr
              (<["cartesia_voices" := PList entries]> (<["vad" := vad]> userdata))
              published entries vad generic_greeting)
    as [payload ->]; try done.
  - by rewrite lookup_insert_eq.
  - by rewrite lookup_insert_ne, lookup_insert_eq.
  - by rewrite !lookup_insert_ne, Hkb.
  - split; [reflexivity|]. by exists payload.
Qed.

Lemma failed_knowledge_base_generic_session_witness :
  is_Ok (value_of
           (entrypoint "sonic-english" (PStr "en") (Ok tt) sample_repr
              (state_of (prewarm (Ok (PObject "VAD")) (λ _, None)
                           (λ url _,
                              if String.eqb url "https://api.cartesia.ai/voices"
                              then Ok (sample_response 200
                                         (Ok (PList [voice_tl_bare; voice_tl])))
                              else Raise (RequestException "Connection refused"))
                           ∅)) ∅))
  = true.
Proof.
  refine (proj1 (proj2 (failed_knowledge_base_generic_session
                          (Ok (PObject "VAD")) (λ _, None) _ ∅ (PObject "VAD")
                          (sample_response 200
                             (Ok (PList [voice_tl_bare; voice_tl])))
                          [voice_tl_bare; voice_tl] "Connection refused"
                          "sonic-english" (PStr "en") sample_repr ∅ _ _ _ _ _ _ _)));
    [reflexivity | reflexivity | reflexivity | reflexivity | reflexivity
     | repeat constructor; by eexists _, _ | by left].
Defined.
